(** * lunchmoney-mcp-v2: the reference cache and the hydration layer

    A shallow embedding of [cache.ts] (the process-wide reference cache,
    [src/cache.ts] in the sources), of [handleError] from [client.ts]
    ([unnamed/part_000]) and of [formatTransaction] from [format.ts]
    ([unnamed/part_002]), followed by the properties of the cache contract.
    The embedding then goes on to the other formatters of [format.ts] that
    need no floating point, to the cache step of [main] in [index.ts]
    ([unnamed/part_001]) and to the handler of the [manage_tag] tool
    ([unnamed/part_005]), the caller of [refreshCache("tags")].

    Conventions of the embedding.
    - A JavaScript [Map<number, T>] is a [gmap Z T]: the identifiers of the
      API are integers, [map.get] is lookup and [map.set] is [insert].
    - [T | null] is [option T]; an optional chain [a?.f ?? d] is a [match].
    - A template literal [`${id}`] on an integer identifier is its decimal
      numeral with a leading minus sign when negative, [pretty id]; this is
      what JavaScript prints for every integer below 10^21 in absolute value.
    - A function that may throw returns a [Completion]; an async function that
      touches the module state or the network is a computation [Js A] over a
      [World] (the module variable [cache], the requests issued so far, and
      what was written to stderr). A throw keeps the effects done before it.
    - One call runs at a time: interleavings of several pending async calls
      are outside the model. *)

From stdpp Require Import base option list strings pretty gmap.

Open Scope Z_scope.
Open Scope string_scope.

(** ** Resource records ([src/types.ts]) *)

(** [types.ts] is generated from the OpenAPI document and is not part of the
    sources; the four record shapes follow section 3 of the specification,
    with the field names the code reads. *)

(** Modelled from the spec: the category record of [types.ts]; fetched in
    flattened form, so without a child list. *)
Module Category.
Record t := mk {
  id : Z;
  name : string;
  group_id : option Z;
  is_income : bool;
  exclude_from_budget : bool;
  exclude_from_totals : bool;
  archived : bool;
  is_group : bool
}.
End Category.

(** Modelled from the spec: the tag record of [types.ts]. *)
Module Tag.
Record t := mk {
  id : Z;
  name : string;
  description : option string;
  archived : bool
}.
End Tag.

(** Modelled from the spec: the manual account record of [types.ts];
    [display_name] is [string | null]. *)
Module ManualAccount.
Record t := mk {
  id : Z;
  name : string;
  display_name : option string;
  balance : string;
  currency : string;
  institution_name : option string;
  status : string;
  type : string
}.
End ManualAccount.

(** Modelled from the spec: the synced (Plaid) account record of [types.ts]:
    the shape of a manual account plus the institution binding. *)
Module PlaidAccount.
Record t := mk {
  id : Z;
  name : string;
  display_name : option string;
  balance : string;
  currency : string;
  institution_name : string;
  status : string;
  type : string;
  subtype : string
}.
End PlaidAccount.

(** ** Exceptions and completions *)

Inductive JsError :=
  | Error (message : string)                 (* new Error(message) *)
  | ApiError (status : Z) (message : string) (* new ApiError(status, message) *)
  | TransportError (reason : string).        (* api.GET itself rejected *)

Inductive Completion (A : Type) :=
  | Ok (value : A)
  | Throw (e : JsError).
Arguments Ok {A} value.
Arguments Throw {A} e.

Definition rejection {A} (r : Completion A) : option JsError :=
  match r with Ok _ => None | Throw e => Some e end.

Definition Number_toString (n : Z) : string := pretty n.

Definition newline : string := String (Ascii.ascii_of_nat 10) EmptyString.

(** ** The API client ([src/client.ts]) *)

(** The four requests of the cache; the categories one carries
    [format: "flattened"]. *)
Inductive Endpoint :=
  | GET_categories
  | GET_tags
  | GET_manual_accounts
  | GET_plaid_accounts.

(** The parsed error body [{ message?, errors?: { errMsg }[] }]. *)
Record ErrorBody := {
  message : option string;
  errors : option (list string)
}.

(** What [await api.GET(path)] gives: the promise rejects, or it resolves to
    [{ data, error, response }]. [data] is [None] for [undefined], and the
    list inside it is [None] when the body lacks the expected field. An
    [error] that is falsy counts as absent, as in [if (error)]. *)
Inductive Response (A : Type) :=
  | Rejected (reason : JsError)
  | Resolved (data : option (option (list A))) (error : option ErrorBody)
             (status : Z).
Arguments Rejected {A} reason.
Arguments Resolved {A} data error status.

(** The remote side: every answer may depend on the requests made before. *)
Record Api := {
  categories_endpoint : list Endpoint -> Response Category.t;
  tags_endpoint : list Endpoint -> Response Tag.t;
  manual_accounts_endpoint : list Endpoint -> Response ManualAccount.t;
  plaid_accounts_endpoint : list Endpoint -> Response PlaidAccount.t
}.

Definition handleError {A} (status : Z) (body : ErrorBody) : Completion A :=
  let detail :=
    match errors body with
    | Some es => Some (String.concat "; " es)
    | None => message body
    end in
  if decide (status = 401) then
    Throw (ApiError 401 "API token invalid or expired. Check LUNCHMONEY_TOKEN.")
  else if decide (status = 429) then
    Throw (ApiError 429 "Rate limit reached. Try again in a moment.")
  else if decide (status = 404) then
    Throw (ApiError 404 (default "Resource not found." detail))
  else if decide (500 <= status) then
    Throw (ApiError status "Lunch Money API error. Try again later.")
  else
    Throw (ApiError status
             (default ("Request failed (" +:+ Number_toString status +:+ ").")
                      detail)).

(** ** The cache module state ([src/cache.ts]) *)

Record Cache := mkCache {
  categories : gmap Z Category.t;
  tags : gmap Z Tag.t;
  manualAccounts : gmap Z ManualAccount.t;
  plaidAccounts : gmap Z PlaidAccount.t
}.

Record World := mkWorld {
  cache : option Cache;          (* let cache: Cache | null *)
  requests : list Endpoint;      (* every api.GET issued, oldest first *)
  stderr : list string           (* console.error lines, oldest first *)
}.

(** The state of a fresh process: [let cache: Cache | null = null]. *)
Definition initial_world : World := mkWorld None [] [].

Definition Js (A : Type) : Type := World -> Completion A * World.

Global Instance Completion_ret : MRet Completion := fun A a => Ok a.

Global Instance Completion_bind : MBind Completion := fun A B k r =>
  match r with
  | Ok a => k a
  | Throw e => Throw e
  end.

Global Instance Js_ret : MRet Js := fun A a w => (Ok a, w).

(** Sequencing: a throw skips the rest and keeps the world reached so far. *)
Global Instance Js_bind : MBind Js := fun A B k m w =>
  match m w with
  | (Ok a, w') => k a w'
  | (Throw e, w') => (Throw e, w')
  end.

(** A synchronous computation that only reads the module variable [cache]. *)
Definition reading {A} (f : option Cache -> Completion A) : Js A :=
  fun w => (f (cache w), w).

Definition lift {A} (r : Completion A) : Js A := fun w => (r, w).

Definition console_error (line : string) : Js unit :=
  fun w => (Ok tt, mkWorld (cache w) (requests w) (stderr w ++ [line])).

(** [api.GET(path)]: the request is logged, the answer is the remote side's. *)
Definition api_GET {A} (e : Endpoint) (answer : list Endpoint -> Response A)
  : Js (Response A) :=
  fun w => (Ok (answer (requests w)),
            mkWorld (cache w) (requests w ++ [e]) (stderr w)).

(** The loop [for (const r of records) map.set(r.id, r)] on a new [Map]. *)
Definition table_of {A} (key : A -> Z) (records : list A) : gmap Z A :=
  foldl (fun map r => <[key r := r]> map) ∅ records.

(** [data?.field ?? []] *)
Definition records_of {A} (data : option (option (list A))) : list A :=
  match data with
  | Some (Some records) => records
  | _ => []
  end.

(** The part of a fetcher after its [await]: from the answer to the table.
    The four fetchers differ only in the path and in the field they read. *)
Definition table_of_response {A} (key : A -> Z) (r : Response A)
  : Completion (gmap Z A) :=
  match r with
  | Rejected reason => Throw reason
  | Resolved data error status =>
      match error with
      | Some body => handleError status body
      | None => Ok (table_of key (records_of data))
      end
  end.

Definition fetchCategories (api : Api) : Js (gmap Z Category.t) :=
  r ← api_GET GET_categories (categories_endpoint api);
  lift (table_of_response Category.id r).

Definition fetchTags (api : Api) : Js (gmap Z Tag.t) :=
  r ← api_GET GET_tags (tags_endpoint api);
  lift (table_of_response Tag.id r).

Definition fetchManualAccounts (api : Api) : Js (gmap Z ManualAccount.t) :=
  r ← api_GET GET_manual_accounts (manual_accounts_endpoint api);
  lift (table_of_response ManualAccount.id r).

Definition fetchPlaidAccounts (api : Api) : Js (gmap Z PlaidAccount.t) :=
  r ← api_GET GET_plaid_accounts (plaid_accounts_endpoint api);
  lift (table_of_response PlaidAccount.id r).

Module ResourceType.
Inductive t := categories | tags | manualAccounts | plaidAccounts.
End ResourceType.

(** [Promise.all] rejects with the reason of the input that rejects first in
    time. [order] lists the four fetches in the order they settle; a failed
    fetch missing from it settles after the listed ones. *)
Definition first_rejection (order : list ResourceType.t)
    (reason : ResourceType.t -> option JsError) (last : JsError) : JsError :=
  default last (head (omap reason order)).

(** [Promise.all([fetchCategories(), fetchTags(), fetchManualAccounts(),
    fetchPlaidAccounts()])]: the array is built first, so all four requests
    are issued, in array order, before any answer is looked at. *)
Definition Promise_all {A B C D} (order : list ResourceType.t)
    (p1 : Js A) (p2 : Js B) (p3 : Js C) (p4 : Js D) : Js (A * B * C * D) :=
  fun w =>
    let '(r1, w1) := p1 w in
    let '(r2, w2) := p2 w1 in
    let '(r3, w3) := p3 w2 in
    let '(r4, w4) := p4 w3 in
    let reason t :=
      match t with
      | ResourceType.categories => rejection r1
      | ResourceType.tags => rejection r2
      | ResourceType.manualAccounts => rejection r3
      | ResourceType.plaidAccounts => rejection r4
      end in
    match r1, r2, r3, r4 with
    | Ok a, Ok b, Ok c, Ok d => (Ok (a, b, c, d), w4)
    | Throw e, _, _, _ => (Throw (first_rejection order reason e), w4)
    | _, Throw e, _, _ => (Throw (first_rejection order reason e), w4)
    | _, _, Throw e, _ => (Throw (first_rejection order reason e), w4)
    | _, _, _, Throw e => (Throw (first_rejection order reason e), w4)
    end.

Definition set_cache (c : Cache) : Js unit :=
  fun w => (Ok tt, mkWorld (Some c) (requests w) (stderr w)).

Definition initCache (api : Api) (order : list ResourceType.t) : Js unit :=
  '(categories, tags, manualAccounts, plaidAccounts) ←
    Promise_all order (fetchCategories api) (fetchTags api)
                (fetchManualAccounts api) (fetchPlaidAccounts api);
  set_cache (mkCache categories tags manualAccounts plaidAccounts);;
  console_error
    ("Cache initialized: "
     +:+ Number_toString (Z.of_nat (size categories)) +:+ " categories, "
     +:+ Number_toString (Z.of_nat (size tags)) +:+ " tags, "
     +:+ Number_toString (Z.of_nat (size manualAccounts))
     +:+ " manual accounts, "
     +:+ Number_toString (Z.of_nat (size plaidAccounts))
     +:+ " plaid accounts").

Definition getCache (cache : option Cache) : Completion Cache :=
  match cache with
  | None => Throw (Error "Cache not initialized. Call initCache() first.")
  | Some c => Ok c
  end.

(** [c] is the object the module variable points to; assigning one of its
    fields updates the cache in place and leaves its other fields alone. *)
Definition refreshCache (api : Api) (type : ResourceType.t) : Js unit :=
  c ← reading getCache;
  match type with
  | ResourceType.categories =>
      fetched ← fetchCategories api;
      set_cache (mkCache fetched (tags c) (manualAccounts c) (plaidAccounts c))
  | ResourceType.tags =>
      fetched ← fetchTags api;
      set_cache (mkCache (categories c) fetched (manualAccounts c)
                         (plaidAccounts c))
  | ResourceType.manualAccounts =>
      fetched ← fetchManualAccounts api;
      set_cache (mkCache (categories c) (tags c) fetched (plaidAccounts c))
  | ResourceType.plaidAccounts =>
      fetched ← fetchPlaidAccounts api;
      set_cache (mkCache (categories c) (tags c) (manualAccounts c) fetched)
  end.

Definition categoryName (cache : option Cache) (id : option Z)
  : Completion string :=
  match id with
  | None => Ok "Uncategorized"
  | Some id =>
      c ← getCache cache;
      Ok (match categories c !! id with
          | Some cat => Category.name cat
          | None => "Category #" +:+ Number_toString id
          end)
  end.

Definition tagNames (cache : option Cache) (ids : list Z)
  : Completion (list string) :=
  c ← getCache cache;
  Ok (map (fun id => match tags c !! id with
                     | Some tag => Tag.name tag
                     | None => "Tag #" +:+ Number_toString id
                     end) ids).

Definition accountName (cache : option Cache) (manualId plaidId : option Z)
  : Completion string :=
  c ← getCache cache;
  match manualId, plaidId with
  | Some manualId, _ =>
      Ok (match manualAccounts c !! manualId with
          | Some acct =>
              default (ManualAccount.name acct) (ManualAccount.display_name acct)
          | None => "Manual #" +:+ Number_toString manualId
          end)
  | None, Some plaidId =>
      Ok (match plaidAccounts c !! plaidId with
          | Some acct =>
              default (PlaidAccount.name acct) (PlaidAccount.display_name acct)
          | None => "Plaid #" +:+ Number_toString plaidId
          end)
  | None, None => Ok "Cash"
  end.

(** ** The hydration layer ([src/format.ts]) *)

(** Modelled from the spec: the transaction record of [types.ts], with the
    fields [formatTransaction] reads. The amount is [string | number]; its
    type is left open, see [formatAmount] below. *)
Module Transaction.
Record t (Amount : Type) := mk {
  id : Z;
  date : string;
  amount : Amount;
  currency : string;
  payee : string;
  category_id : option Z;
  manual_account_id : option Z;
  plaid_account_id : option Z;
  tag_ids : list Z;
  notes : option string;
  status : string
}.
Arguments mk {Amount}.
Arguments id {Amount} t.
Arguments date {Amount} t.
Arguments amount {Amount} t.
Arguments currency {Amount} t.
Arguments payee {Amount} t.
Arguments category_id {Amount} t.
Arguments manual_account_id {Amount} t.
Arguments plaid_account_id {Amount} t.
Arguments tag_ids {Amount} t.
Arguments notes {Amount} t.
Arguments status {Amount} t.
End Transaction.

(** [Boolean(s)] on a string: false exactly for the empty string. *)
Definition truthy (s : string) : Prop := s ≠ "".

Global Instance truthy_dec s : Decision (truthy s).
Proof. unfold truthy. apply _. Defined.

Section Hydration.

(** [formatAmount] goes through [parseFloat], [Math.abs] and [toFixed(2)]:
    floating point, kept abstract. It is total on every amount the type
    [string | number] allows, which is all the properties below need. *)
Variable Amount : Type.
Variable formatAmount : Amount -> string -> string.

Definition formatTransaction (cache : option Cache)
    (t : Transaction.t Amount) : Completion string :=
  tags ←
    (if decide (0 < length (Transaction.tag_ids t))%nat
     then names ← tagNames cache (Transaction.tag_ids t);
          Ok (" [" +:+ String.concat ", " names +:+ "]")
     else Ok "");
  account ← accountName cache (Transaction.manual_account_id t)
                        (Transaction.plaid_account_id t);
  category ← categoryName cache (Transaction.category_id t);
  let notes :=
    match Transaction.notes t with
    | Some n => if decide (truthy n)
                then newline +:+ "  Notes: " +:+ n
                else ""
    | None => ""
    end in
  let status :=
    if decide (Transaction.status t = "unreviewed")
    then " (unreviewed)" else "" in
  Ok (String.concat newline
        (filter truthy
           [ Transaction.date t +:+ "  "
               +:+ formatAmount (Transaction.amount t) (Transaction.currency t)
               +:+ "  " +:+ Transaction.payee t;
             "  Category: " +:+ category +:+ " | Account: " +:+ account
               +:+ status +:+ tags;
             "  ID: " +:+ Number_toString (Transaction.id t);
             notes ])).

End Hydration.

Arguments formatTransaction {Amount} formatAmount cache t.

(** ** The other formatters of [format.ts] *)

(** [array.map(f)] for a callback that may throw: elements are visited in
    order and the first throw ends the call. *)
Fixpoint Array_map {A B} (f : A -> Completion B) (l : list A)
  : Completion (list B) :=
  match l with
  | [] => Ok []
  | x :: l => y ← f x; ys ← Array_map f l; Ok (y :: ys)
  end.

(** [n === 1 ? "" : "s"] *)
Definition plural (n : nat) : string := if decide (n = 1%nat) then "" else "s".

Definition blank_line : string := newline +:+ newline.

Section TransactionLists.

Variable Amount : Type.
Variable formatAmount : Amount -> string -> string.

Definition formatTransactions (cache : option Cache)
    (transactions : list (Transaction.t Amount)) (hasMore : bool)
  : Completion string :=
  if decide (length transactions = 0%nat) then
    Ok "No transactions found for this period. Try adjusting the date range or filters."
  else
    lines ← Array_map (formatTransaction formatAmount cache) transactions;
    let summary :=
      "Showing " +:+ Number_toString (Z.of_nat (length transactions))
      +:+ " transaction" +:+ plural (length transactions) in
    let more :=
      if hasMore then " (more available — increase limit or use offset)"
      else "" in
    Ok (summary +:+ more +:+ blank_line +:+ String.concat blank_line lines).

Definition formatBulkUpdateResult (cache : option Cache)
    (transactions : list (Transaction.t Amount)) : Completion string :=
  let count := length transactions in
  lines ← Array_map (formatTransaction formatAmount cache)
                    (take 3 transactions);
  let preview := String.concat blank_line lines in
  let more :=
    if decide (3 < count)%nat
    then blank_line +:+ "... and "
         +:+ Number_toString (Z.of_nat count - 3) +:+ " more"
    else "" in
  Ok (Number_toString (Z.of_nat count) +:+ " transaction" +:+ plural count
      +:+ " updated." +:+ blank_line +:+ preview +:+ more).

End TransactionLists.

Arguments formatTransactions {Amount} formatAmount cache transactions hasMore.
Arguments formatBulkUpdateResult {Amount} formatAmount cache transactions.

Definition formatCategoryFlags (cat : Category.t) : string :=
  let flags :=
    ((if Category.is_income cat then ["income"] else [])
     ++ (if Category.exclude_from_budget cat then ["excl. budget"] else [])
     ++ (if Category.exclude_from_totals cat then ["excl. totals"] else [])
     ++ (if Category.archived cat then ["archived"] else []))%list in
  if decide (0 < length flags)%nat
  then " (" +:+ String.concat ", " flags +:+ ")"
  else "".

(** [cat.group_id ? ... : ""]: a number is truthy unless it is 0. *)
Definition truthy_id (id : option Z) : option Z :=
  match id with
  | Some n => if decide (n = 0) then None else Some n
  | None => None
  end.

(** [s ? ... : ""] on a [string | null] field: the string when it is truthy. *)
Definition truthy_string (s : option string) : option string :=
  match s with
  | Some s => if decide (truthy s) then Some s else None
  | None => None
  end.

Module Mode.
Inductive t := nested | flat.
End Mode.

Section Categories.

(** Two optional fields of the category record that the cache never reads and
    [Category.t] leaves out: the child list of the nested form and the
    description. They are read through these accessors. *)
Variable children : Category.t -> option (list Category.t).
Variable description : Category.t -> option string.

Definition formatCategories (cache : option Cache)
    (categories : list Category.t) (mode : Mode.t) : Completion string :=
  if decide (length categories = 0%nat) then Ok "No categories found."
  else
    match mode with
    | Mode.nested =>
        Ok (String.concat newline
              (map (fun cat =>
                      let flags := formatCategoryFlags cat in
                      let header :=
                        Category.name cat +:+ flags +:+ " (ID: "
                        +:+ Number_toString (Category.id cat) +:+ ")" in
                      match Category.is_group cat, children cat with
                      | true, Some (c :: cs) =>
                          header +:+ newline
                          +:+ String.concat newline
                                (map (fun c =>
                                        "  - " +:+ Category.name c
                                        +:+ " (ID: "
                                        +:+ Number_toString (Category.id c)
                                        +:+ ")")
                                     (c :: cs))
                      | _, _ => header
                      end)
                   categories))
    | Mode.flat =>
        lines ← Array_map
                  (fun cat =>
                     let flags := formatCategoryFlags cat in
                     group ←
                       match truthy_id (Category.group_id cat) with
                       | Some group_id =>
                           name ← categoryName cache (Some group_id);
                           Ok (" [group: " +:+ name +:+ "]")
                       | None => Ok ""
                       end;
                     Ok (Category.name cat +:+ flags +:+ group +:+ " (ID: "
                         +:+ Number_toString (Category.id cat) +:+ ")"))
                  categories;
        Ok (String.concat newline lines)
    end.

Definition formatCategory (cache : option Cache) (cat : Category.t)
  : Completion string :=
  let flags := formatCategoryFlags cat in
  group ←
    match truthy_id (Category.group_id cat) with
    | Some group_id =>
        name ← categoryName cache (Some group_id);
        Ok (" [group: " +:+ name +:+ "]")
    | None => Ok ""
    end;
  let desc :=
    match truthy_string (description cat) with
    | Some d => newline +:+ "  Description: " +:+ d
    | None => ""
    end in
  Ok (Category.name cat +:+ flags +:+ group +:+ " (ID: "
      +:+ Number_toString (Category.id cat) +:+ ")" +:+ desc).

End Categories.

Definition formatTags (tags : list Tag.t) : string :=
  if decide (length tags = 0%nat) then
    "No tags found. Create tags in Lunch Money to organize transactions."
  else
    String.concat newline
      (map (fun t =>
              let desc :=
                match truthy_string (Tag.description t) with
                | Some d => " — " +:+ d
                | None => ""
                end in
              let archived :=
                if Tag.archived t then " (archived)" else "" in
              Tag.name t +:+ desc +:+ archived +:+ " (ID: "
              +:+ Number_toString (Tag.id t) +:+ ")")
           tags).

Definition formatTag (tag : Tag.t) : string :=
  let desc :=
    match truthy_string (Tag.description tag) with
    | Some d => " — " +:+ d
    | None => ""
    end in
  let archived := if Tag.archived tag then " (archived)" else "" in
  Tag.name tag +:+ desc +:+ archived +:+ " (ID: "
  +:+ Number_toString (Tag.id tag) +:+ ")".

Section Accounts.

(** [formatAmount] at the type of an account balance, a string. *)
Variable formatAmount : string -> string -> string.

Definition formatAccounts (manual : list ManualAccount.t)
    (plaid : list PlaidAccount.t) : string :=
  let lines1 :=
    if decide (0 < length manual)%nat then
      ("## Manual Accounts" +:+ newline)
      :: map (fun a =>
                let display :=
                  default (ManualAccount.name a)
                          (ManualAccount.display_name a) in
                let inst :=
                  match truthy_string (ManualAccount.institution_name a) with
                  | Some i => " @ " +:+ i
                  | None => ""
                  end in
                let closed :=
                  if decide (ManualAccount.status a = "closed")
                  then " (closed)" else "" in
                display +:+ inst +:+ closed +:+ newline +:+ "  Balance: "
                +:+ formatAmount (ManualAccount.balance a)
                                 (ManualAccount.currency a)
                +:+ " | Type: " +:+ ManualAccount.type a +:+ " | ID: "
                +:+ Number_toString (ManualAccount.id a))
             manual
    else [] in
  let lines2 :=
    if decide (0 < length plaid)%nat then
      ((if decide (0 < length lines1)%nat then [""] else [])
       ++ ("## Synced Accounts" +:+ newline)
       :: map (fun a =>
                let display :=
                  default (PlaidAccount.name a)
                          (PlaidAccount.display_name a) in
                let statusFlag :=
                  if decide (PlaidAccount.status a = "active") then ""
                  else " (" +:+ PlaidAccount.status a +:+ ")" in
                display +:+ " @ " +:+ PlaidAccount.institution_name a
                +:+ statusFlag +:+ newline +:+ "  Balance: "
                +:+ formatAmount (PlaidAccount.balance a)
                                 (PlaidAccount.currency a)
                +:+ " | Type: " +:+ PlaidAccount.type a +:+ "/"
                +:+ PlaidAccount.subtype a +:+ " | ID: "
                +:+ Number_toString (PlaidAccount.id a))
             plaid)%list
    else [] in
  let lines := (lines1 ++ lines2)%list in
  if decide (length lines = 0%nat) then "No accounts found."
  else String.concat newline lines.

Definition formatAccount (account : ManualAccount.t) : string :=
  let display :=
    default (ManualAccount.name account)
            (ManualAccount.display_name account) in
  let inst :=
    match truthy_string (ManualAccount.institution_name account) with
    | Some i => " @ " +:+ i
    | None => ""
    end in
  let closed :=
    if decide (ManualAccount.status account = "closed")
    then " (closed)" else "" in
  display +:+ inst +:+ closed +:+ newline +:+ "  Balance: "
  +:+ formatAmount (ManualAccount.balance account)
                   (ManualAccount.currency account)
  +:+ " | Type: " +:+ ManualAccount.type account +:+ " | ID: "
  +:+ Number_toString (ManualAccount.id account).

End Accounts.

(** [deps] is [None] for [undefined]; otherwise the entries of the object, in
    the order of [Object.entries]. The counts are integers. *)
Definition formatDeleteResult (type : string) (id : Z)
    (deps : option (list (string * Z))) : string :=
  match deps with
  | Some deps =>
      let depLines :=
        String.concat newline
          (map (fun '(k, v) => "  " +:+ k +:+ ": " +:+ Number_toString v)
               (filter (fun '(_, v) => 0 < v) deps)) in
      "Cannot delete " +:+ type +:+ " " +:+ Number_toString id
      +:+ " — has dependencies:" +:+ newline +:+ depLines +:+ blank_line
      +:+ "Use force=true to delete anyway."
  | None =>
      type +:+ " " +:+ Number_toString id +:+ " deleted successfully."
  end.

(** ** Startup ([index.ts], [unnamed/part_001]) *)

Section Startup.

(** How [console.error] prints an error object (name, message and stack):
    left open. *)
Variable inspect : JsError -> string.

(** The cache step of [main]:
    [try { await initCache() } catch (err) { console.error(...) ... }]. *)
Definition main_initCache (api : Api) (order : list ResourceType.t)
  : Js unit :=
  fun w =>
    match initCache api order w with
    | (Ok tt, w') => (Ok tt, w')
    | (Throw err, w') =>
        (console_error ("Failed to initialize cache: " +:+ inspect err);;
         console_error
           "Continuing without cache — some features may show IDs instead of names.")
          w'
    end.

End Startup.

(** ** The tag tool ([tools/tags.ts], [unnamed/part_005]) *)

Module ManageTag.

Inductive action := create | update | delete.

(** The validated arguments of the tool; [None] is [undefined]. *)
Record params := {
  act : action;
  id : option Z;
  name : option string;
  description : option (option string);
  archived : option bool;
  force : option bool
}.

(** The error body of a write, which may carry [dependents]. *)
Record WriteError := {
  body : ErrorBody;
  dependents : option (list (string * Z))
}.

(** What the awaited write gives: the promise rejects, or it resolves with a
    truthy [error], or it resolves without one and with the [data] its type
    announces. *)
Inductive Write (A : Type) :=
  | WriteRejected (reason : JsError)
  | WriteFailed (error : WriteError) (status : Z)
  | WriteDone (data : A) (status : Z).
Arguments WriteRejected {A} reason.
Arguments WriteFailed {A} error status.
Arguments WriteDone {A} data status.

(** The remote side of the three writes, as a function of what is sent
    (the writes are not part of [requests], which logs the GETs of the cache):
    the body of [POST /tags], the path id and body of [PUT /tags/{id}], the
    path id and the [force] query of [DELETE /tags/{id}]. *)
Record Remote := {
  POST_tags : string -> option (option string) -> Write Tag.t;
  PUT_tag : Z -> option string -> option (option string) -> option bool
            -> Write Tag.t;
  DELETE_tag : Z -> bool -> Write unit
}.

(** The tool result [{ content: [{ type: "text", text }], isError? }]. *)
Record Result := {
  text : string;
  isError : bool
}.

Definition handler (api : Api) (remote : Remote) (p : params) : Js Result :=
  match act p with
  | create =>
      match truthy_string (name p) with
      | None =>
          mret {| text := "Error: name is required for create.";
                  isError := true |}
      | Some name =>
          match POST_tags remote name (description p) with
          | WriteRejected reason => lift (Throw reason)
          | WriteFailed error status => lift (handleError status (body error))
          | WriteDone data _ =>
              refreshCache api ResourceType.tags;;
              mret {| text := "Tag created." +:+ blank_line +:+ formatTag data;
                      isError := false |}
          end
      end
  | update =>
      match id p with
      | None =>
          mret {| text := "Error: id is required for update.";
                  isError := true |}
      | Some id =>
          match PUT_tag remote id (name p) (description p) (archived p) with
          | WriteRejected reason => lift (Throw reason)
          | WriteFailed error status => lift (handleError status (body error))
          | WriteDone data _ =>
              refreshCache api ResourceType.tags;;
              mret {| text := "Tag updated." +:+ blank_line +:+ formatTag data;
                      isError := false |}
          end
      end
  | delete =>
      match id p with
      | None =>
          mret {| text := "Error: id is required for delete.";
                  isError := true |}
      | Some id =>
          match DELETE_tag remote id (default false (force p)) with
          | WriteRejected reason => lift (Throw reason)
          | WriteFailed error status =>
              if decide (status = 422) then
                mret {| text := formatDeleteResult "Tag" id (dependents error);
                        isError := true |}
              else lift (handleError status (body error))
          | WriteDone _ status =>
              if decide (status = 422) then
                mret {| text := formatDeleteResult "Tag" id None;
                        isError := true |}
              else
                refreshCache api ResourceType.tags;;
                mret {| text := formatDeleteResult "Tag" id None;
                        isError := false |}
          end
      end
  end.

End ManageTag.

(** ** Vocabulary for the statements *)

(** The request a refresh of one resource type sends. *)
Definition endpoint_of (type : ResourceType.t) : Endpoint :=
  match type with
  | ResourceType.categories => GET_categories
  | ResourceType.tags => GET_tags
  | ResourceType.manualAccounts => GET_manual_accounts
  | ResourceType.plaidAccounts => GET_plaid_accounts
  end.

(** The fetcher of a resource type, run from [w], rejects with [e]. *)
Definition fetch_fails (api : Api) (type : ResourceType.t) (w : World)
    (e : JsError) : Prop :=
  match type with
  | ResourceType.categories => (fetchCategories api w).1 = Throw e
  | ResourceType.tags => (fetchTags api w).1 = Throw e
  | ResourceType.manualAccounts => (fetchManualAccounts api w).1 = Throw e
  | ResourceType.plaidAccounts => (fetchPlaidAccounts api w).1 = Throw e
  end.

(** The remote side answers every request the same way whatever was
    requested before. *)
Definition stable (api : Api) : Prop :=
  (forall h h', categories_endpoint api h = categories_endpoint api h')
  /\ (forall h h', tags_endpoint api h = tags_endpoint api h')
  /\ (forall h h',
        manual_accounts_endpoint api h = manual_accounts_endpoint api h')
  /\ (forall h h',
        plaid_accounts_endpoint api h = plaid_accounts_endpoint api h').

(** The outcomes of the four fetches [initCache] starts from [w], in array
    order, as rejection reasons. *)
Definition init_rejections (api : Api) (w : World) : list (option JsError) :=
  let f1 := fetchCategories api w in
  let f2 := fetchTags api f1.2 in
  let f3 := fetchManualAccounts api f2.2 in
  let f4 := fetchPlaidAccounts api f3.2 in
  [rejection f1.1; rejection f2.1; rejection f3.1; rejection f4.1].

(** The write the tag tool sends for [p] went through: the arguments pass
    the checks of the handler and the remote side answered without error
    (for a deletion, not with status 422 either). *)
Definition write_done (remote : ManageTag.Remote) (p : ManageTag.params)
  : Prop :=
  match ManageTag.act p with
  | ManageTag.create =>
      exists name data status,
        truthy_string (ManageTag.name p) = Some name
        /\ ManageTag.POST_tags remote name (ManageTag.description p)
           = ManageTag.WriteDone data status
  | ManageTag.update =>
      exists id data status,
        ManageTag.id p = Some id
        /\ ManageTag.PUT_tag remote id (ManageTag.name p)
             (ManageTag.description p) (ManageTag.archived p)
           = ManageTag.WriteDone data status
  | ManageTag.delete =>
      exists id status,
        ManageTag.id p = Some id
        /\ ManageTag.DELETE_tag remote id (default false (ManageTag.force p))
           = ManageTag.WriteDone tt status
        /\ status <> 422
  end.

(** The write the tag tool sends for [p] was answered with an error body and
    [status] (for a deletion, a status other than 422). *)
Definition write_failed (remote : ManageTag.Remote) (p : ManageTag.params)
    (error : ManageTag.WriteError) (status : Z) : Prop :=
  match ManageTag.act p with
  | ManageTag.create =>
      exists name,
        truthy_string (ManageTag.name p) = Some name
        /\ ManageTag.POST_tags remote name (ManageTag.description p)
           = ManageTag.WriteFailed error status
  | ManageTag.update =>
      exists id,
        ManageTag.id p = Some id
        /\ ManageTag.PUT_tag remote id (ManageTag.name p)
             (ManageTag.description p) (ManageTag.archived p)
           = ManageTag.WriteFailed error status
  | ManageTag.delete =>
      exists id,
        ManageTag.id p = Some id
        /\ ManageTag.DELETE_tag remote id (default false (ManageTag.force p))
           = ManageTag.WriteFailed error status
        /\ status <> 422
  end.

(** The error the API client raises for an answer: the reason of a rejected
    request, what [handleError] throws on the status and the error body of an
    answer that carries one, and none for an answer without error body. *)
Definition client_error {A} (r : Response A) : option JsError :=
  match r with
  | Rejected reason => Some reason
  | Resolved _ (Some body) status => rejection (@handleError unit status body)
  | Resolved _ None _ => None
  end.

(** A request that was served: the answer has a success status
    ([response.ok], 200 to 299) and no error body, and [records] is the list
    its data carries. *)
Definition served {A} (r : Response A) (records : list A) : Prop :=
  exists data status,
    r = Resolved data None status
    /\ 200 <= status <= 299
    /\ records_of data = records.

(** The error of the answer to the one request of [refreshCache(type)], sent
    when [reqs] are the requests made before. *)
Definition refresh_error (api : Api) (type : ResourceType.t)
    (reqs : list Endpoint) : option JsError :=
  match type with
  | ResourceType.categories => client_error (categories_endpoint api reqs)
  | ResourceType.tags => client_error (tags_endpoint api reqs)
  | ResourceType.manualAccounts =>
      client_error (manual_accounts_endpoint api reqs)
  | ResourceType.plaidAccounts =>
      client_error (plaid_accounts_endpoint api reqs)
  end.

(** The errors of the answers to the four requests of [initCache()], in array
    order, sent when [reqs] are the requests made before. *)
Definition init_errors (api : Api) (reqs : list Endpoint)
  : list (option JsError) :=
  [client_error (categories_endpoint api reqs);
   client_error (tags_endpoint api (reqs ++ [GET_categories]));
   client_error
     (manual_accounts_endpoint api (reqs ++ [GET_categories; GET_tags]));
   client_error
     (plaid_accounts_endpoint api
        (reqs ++ [GET_categories; GET_tags; GET_manual_accounts]))].

(** ** Sample data

    The records and answers used by the scenarios of the specification. *)

(** The error [getCache] throws on the uninitialized state. *)
Definition not_initialized : JsError :=
  Error "Cache not initialized. Call initCache() first.".

Definition food : Category.t :=
  Category.mk 1 "Food" None false false false false false.

Definition rent : Category.t :=
  Category.mk 2 "Rent" None false false false false false.

Definition work : Tag.t := Tag.mk 10 "work" None false.

Definition checking : ManualAccount.t :=
  ManualAccount.mk 3 "Checking" None "100.0000" "usd" None "active" "cash".

Definition checking_main : ManualAccount.t :=
  ManualAccount.mk 3 "Checking" (Some "Main") "100.0000" "usd" None "active"
                   "cash".

Definition savings : PlaidAccount.t :=
  PlaidAccount.mk 7 "Savings" None "250.0000" "usd" "Bank" "active"
                  "depository" "savings".

Definition sample_cache : Cache :=
  mkCache (table_of Category.id [food; rent]) (table_of Tag.id [work])
          (table_of ManualAccount.id [checking])
          (table_of PlaidAccount.id [savings]).

Definition answer {A} (records : list A) : list Endpoint -> Response A :=
  fun _ => Resolved (Some (Some records)) None 200.

Definition server_error {A} : list Endpoint -> Response A :=
  fun _ => Resolved None (Some {| message := None; errors := None |}) 500.

(** A remote side where everything is served. *)
Definition api_up : Api :=
  {| categories_endpoint := answer [food; rent];
     tags_endpoint := answer [work];
     manual_accounts_endpoint := answer [checking_main];
     plaid_accounts_endpoint := answer [savings] |}.

(** A remote side where the tags request fails and the others are served. *)
Definition api_tags_down : Api :=
  {| categories_endpoint := answer [food; rent];
     tags_endpoint := server_error;
     manual_accounts_endpoint := answer [checking];
     plaid_accounts_endpoint := answer [savings] |}.

(** The start of a process against [api_tags_down]: [initCache()] run once
    from the fresh state. *)
Definition failed_start : Completion unit * World :=
  initCache api_tags_down [] initial_world.

(** A transaction whose category the cache does not know. *)
Definition coffee : Transaction.t string :=
  Transaction.mk 77 "2026-01-02" "4.5000" "usd" "Cafe" (Some 42) (Some 3) None
                 [10; 20] None "unreviewed".

(** A remote side that accepts every write of the tag tool. *)
Definition remote_accepts : ManageTag.Remote :=
  {| ManageTag.POST_tags := fun _ _ => ManageTag.WriteDone work 201;
     ManageTag.PUT_tag := fun _ _ _ _ => ManageTag.WriteDone work 200;
     ManageTag.DELETE_tag := fun _ _ => ManageTag.WriteDone tt 204 |}.

(** A remote side that refuses every write of the tag tool: creation and
    update with 400, deletion with 422, without saying what depends on the
    tag. *)
Definition remote_refuses : ManageTag.Remote :=
  let error :=
    {| ManageTag.body := {| message := Some "no"; errors := None |};
       ManageTag.dependents := None |} in
  {| ManageTag.POST_tags := fun _ _ => ManageTag.WriteFailed error 400;
     ManageTag.PUT_tag := fun _ _ _ _ => ManageTag.WriteFailed error 400;
     ManageTag.DELETE_tag := fun _ _ => ManageTag.WriteFailed error 422 |}.

Definition create_tag : ManageTag.params :=
  {| ManageTag.act := ManageTag.create; ManageTag.id := None;
     ManageTag.name := Some "work"; ManageTag.description := None;
     ManageTag.archived := None; ManageTag.force := None |}.

Definition delete_tag : ManageTag.params :=
  {| ManageTag.act := ManageTag.delete; ManageTag.id := Some 10;
     ManageTag.name := None; ManageTag.description := None;
     ManageTag.archived := None; ManageTag.force := None |}.

(** A remote side where the tags request is answered with status 500 and an
    empty body, so that [error] and [data] are both [undefined]; the other
    requests are served. *)
Definition api_tags_bodyless : Api :=
  {| categories_endpoint := answer [food; rent];
     tags_endpoint := fun _ => Resolved None None 500;
     manual_accounts_endpoint := answer [checking];
     plaid_accounts_endpoint := answer [savings] |}.

(** A remote side where the tags request is rejected (the network is down)
    and the others are served. *)
Definition api_tags_unreachable : Api :=
  {| categories_endpoint := answer [food; rent];
     tags_endpoint := fun _ => Rejected (TransportError "fetch failed");
     manual_accounts_endpoint := answer [checking];
     plaid_accounts_endpoint := answer [savings] |}.

(** * Properties *)

(** ** Tables built from a snapshot *)

Section Tables.
Context {A : Type} (key : A -> Z).

Lemma table_of_snoc (records : list A) (r : A) :
  table_of key (records ++ [r]) = <[key r := r]> (table_of key records).
Proof. unfold table_of. by rewrite foldl_snoc. Qed.

(** A key is in the table exactly when some record of the snapshot has it. *)
Lemma table_of_lookup_None (records : list A) (k : Z) :
  table_of key records !! k = None <-> k ∉ map key records.
Proof.
  induction records as [|r records IH] using rev_ind.
  - split; [intros _; apply not_elem_of_nil | done].
  - rewrite table_of_snoc, map_app, not_elem_of_app. simpl.
    rewrite lookup_insert_None, IH, not_elem_of_cons.
    split; [intros [? ?] | intros [? [? _]]]; repeat split;
      auto using not_elem_of_nil.
Qed.

(** With unique identifiers every record of the snapshot is found under
    its own identifier. *)
Lemma table_of_lookup_unique (records : list A) (r : A) :
  NoDup (map key records) -> r ∈ records ->
  table_of key records !! key r = Some r.
Proof.
  induction records as [|r' records IH] using rev_ind.
  - intros _ Hr. by apply elem_of_nil in Hr.
  - rewrite map_app, table_of_snoc. simpl.
    intros Hnd Hr. apply NoDup_app in Hnd as (Hnd & Hfresh & _).
    apply elem_of_app in Hr as [Hr | Hr].
    + rewrite lookup_insert_ne; [by apply IH |].
      intros Heq. apply (Hfresh (key r)).
      * apply list_elem_of_fmap. by exists r.
      * rewrite Heq. apply list_elem_of_singleton. done.
    + apply list_elem_of_singleton in Hr as ->. apply lookup_insert_eq.
Qed.
End Tables.

(** ** Running the fetchers *)

Lemma fetchCategories_run (api : Api) (w : World) :
  fetchCategories api w =
    (table_of_response Category.id (categories_endpoint api (requests w)),
     mkWorld (cache w) (requests w ++ [GET_categories]) (stderr w)).
Proof. reflexivity. Qed.

Lemma fetchTags_run (api : Api) (w : World) :
  fetchTags api w =
    (table_of_response Tag.id (tags_endpoint api (requests w)),
     mkWorld (cache w) (requests w ++ [GET_tags]) (stderr w)).
Proof. reflexivity. Qed.

Lemma fetchManualAccounts_run (api : Api) (w : World) :
  fetchManualAccounts api w =
    (table_of_response ManualAccount.id
       (manual_accounts_endpoint api (requests w)),
     mkWorld (cache w) (requests w ++ [GET_manual_accounts]) (stderr w)).
Proof. reflexivity. Qed.

Lemma fetchPlaidAccounts_run (api : Api) (w : World) :
  fetchPlaidAccounts api w =
    (table_of_response PlaidAccount.id
       (plaid_accounts_endpoint api (requests w)),
     mkWorld (cache w) (requests w ++ [GET_plaid_accounts]) (stderr w)).
Proof. reflexivity. Qed.

(** [handleError] never returns. *)
Lemma handleError_throws {A} (status : Z) (body : ErrorBody) :
  exists e, @handleError A status body = Throw e.
Proof. unfold handleError. repeat case_decide; eauto. Qed.


Lemma getCache_uninitialized : getCache None = Throw not_initialized.
Proof. reflexivity. Qed.

(** ** Resolution on an initialized cache *)

(** C3. On an initialized cache [categoryName] returns "Uncategorized" for
    [null], the stored name for an identifier present in the categories table,
    and the fallback "Category #<id>" for an absent one, without throwing.
    With categories {1: "Food", 2: "Rent"}: 1 gives "Food", 5 gives
    "Category #5", [null] gives "Uncategorized". *)
Theorem categoryName_resolves (c : Cache) :
  categoryName (Some c) None = Ok "Uncategorized"
  /\ (forall id cat,
        categories c !! id = Some cat ->
        categoryName (Some c) (Some id) = Ok (Category.name cat))
  /\ (forall id,
        categories c !! id = None ->
        categoryName (Some c) (Some id)
          = Ok ("Category #" +:+ Number_toString id))
  /\ (forall c1 c2,
        Category.id c1 = 1 -> Category.name c1 = "Food" ->
        Category.id c2 = 2 -> Category.name c2 = "Rent" ->
        categories c = table_of Category.id [c1; c2] ->
        categoryName (Some c) (Some 1) = Ok "Food"
        /\ categoryName (Some c) (Some 5) = Ok "Category #5"
        /\ categoryName (Some c) None = Ok "Uncategorized").
Proof.
  assert (Hpresent : forall id cat,
            categories c !! id = Some cat ->
            categoryName (Some c) (Some id) = Ok (Category.name cat)).
  { intros id cat Hcat. unfold categoryName. simpl. by rewrite Hcat. }
  assert (Habsent : forall id,
            categories c !! id = None ->
            categoryName (Some c) (Some id)
              = Ok ("Category #" +:+ Number_toString id)).
  { intros id Hcat. unfold categoryName. simpl. by rewrite Hcat. }
  split; [done |]. split; [exact Hpresent |]. split; [exact Habsent |].
  intros c1 c2 Hid1 Hname1 Hid2 Hname2 Htable.
  split; [| split; [| done]].
  - rewrite (Hpresent 1 c1), Hname1; [done |].
    rewrite Htable. rewrite <- Hid1. apply table_of_lookup_unique.
    + simpl. rewrite Hid1, Hid2. compute_done.
    + constructor.
  - rewrite (Habsent 5); [done |].
    rewrite Htable. apply table_of_lookup_None. simpl.
    rewrite Hid1, Hid2. compute_done.
Qed.

Lemma categoryName_resolves_witness :
  categoryName (Some sample_cache) (Some 1) = Ok "Food"
  /\ categoryName (Some sample_cache) (Some 5) = Ok "Category #5"
  /\ categoryName (Some sample_cache) None = Ok "Uncategorized".
Proof.
  destruct (categoryName_resolves sample_cache) as (_ & _ & _ & Hscenario).
  apply (Hscenario food rent); reflexivity.
Defined.

(** C5. On an initialized cache [tagNames] returns one string per input
    identifier, in input order, duplicates included: the stored tag name when
    the identifier is present, otherwise "Tag #<id>". With tags {10: "work"},
    [tagNames([10, 20])] is ["work", "Tag #20"]. *)
Theorem tagNames_pointwise (c : Cache) :
  (forall ids : list Z,
     exists names : list string,
       tagNames (Some c) ids = Ok names
       /\ length names = length ids
       /\ forall (i : nat) (id : Z),
            ids !! i = Some id ->
            names !! i = Some (match tags c !! id with
                               | Some tag => Tag.name tag
                               | None => "Tag #" +:+ Number_toString id
                               end))
  /\ (forall tag,
        Tag.id tag = 10 -> Tag.name tag = "work" ->
        tags c = table_of Tag.id [tag] ->
        tagNames (Some c) [10; 20] = Ok ["work"; "Tag #20"]).
Proof.
  split.
  - intros ids. eexists. split; [reflexivity |]. split.
    + apply length_map.
    + intros i id Hi. rewrite list_lookup_fmap, Hi. done.
  - intros tag Hid Hname Htable. unfold tagNames. simpl.
    replace (tags c !! 10) with (Some tag).
    + replace (tags c !! 20) with (@None Tag.t); [by rewrite Hname |].
      symmetry. rewrite Htable. apply table_of_lookup_None.
      simpl. rewrite Hid. compute_done.
    + symmetry. rewrite Htable, <- Hid. apply table_of_lookup_unique.
      * simpl. rewrite Hid. compute_done.
      * constructor.
Qed.

Lemma tagNames_pointwise_witness :
  tagNames (Some sample_cache) [10; 20] = Ok ["work"; "Tag #20"].
Proof.
  destruct (tagNames_pointwise sample_cache) as [_ Hscenario].
  apply (Hscenario work); reflexivity.
Defined.

(** ** The uninitialized state *)

(** C9. [categoryName(null)] returns "Uncategorized" whatever the module
    variable holds, the uninitialized state included; on the uninitialized
    state every other resolution call throws "Cache not initialized":
    [categoryName] on an identifier, [tagNames] on any list, the empty one
    included, and [accountName] on any arguments, both [null] included. *)
Theorem uninitialized_resolution :
  (forall cache, categoryName cache None = Ok "Uncategorized")
  /\ categoryName None None = Ok "Uncategorized"
  /\ (forall id, categoryName None (Some id) = Throw not_initialized)
  /\ (forall ids, tagNames None ids = Throw not_initialized)
  /\ tagNames None [] = Throw not_initialized
  /\ (forall manualId plaidId,
        accountName None manualId plaidId = Throw not_initialized)
  /\ accountName None None None = Throw not_initialized
  /\ not_initialized = Error "Cache not initialized. Call initCache() first.".
Proof. repeat split. Qed.

(** C4, as the code has it. [accountName(null, null)] returns "Cash" on every
    initialized cache; on the uninitialized state it throws
    "Cache not initialized" like every other call of [accountName]. *)
Theorem accountName_cash :
  (forall c, accountName (Some c) None None = Ok "Cash")
  /\ accountName None None None = Throw not_initialized.
Proof. split; [intros c |]; reflexivity. Qed.

(** C4, as stated, fails on the uninitialized state: the call throws. *)
Lemma accountName_cash_uninitialized :
  accountName (cache initial_world) None None <> Ok "Cash".
Proof. discriminate. Qed.

(** ** Manual accounts *)

(** C10. With a manual identifier [accountName] does not read the synced
    accounts table: the result is the same for every content of that table and
    every [plaidId]; when the manual identifier is absent from the manual
    accounts table the result is "Manual #<manualId>", also for a [plaidId]
    present in the synced accounts table. *)
Theorem accountName_manual_first (c : Cache) (manualId : Z) :
  (forall plaidId plaidId' plaid',
     accountName (Some c) (Some manualId) plaidId
     = accountName
         (Some (mkCache (categories c) (tags c) (manualAccounts c) plaid'))
         (Some manualId) plaidId')
  /\ (forall plaidId,
        manualAccounts c !! manualId = None ->
        accountName (Some c) (Some manualId) plaidId
        = Ok ("Manual #" +:+ Number_toString manualId))
  /\ (forall plaidId acct,
        manualAccounts c !! manualId = None ->
        plaidAccounts c !! plaidId = Some acct ->
        accountName (Some c) (Some manualId) (Some plaidId)
        = Ok ("Manual #" +:+ Number_toString manualId)).
Proof.
  assert (Habsent : forall plaidId,
            manualAccounts c !! manualId = None ->
            accountName (Some c) (Some manualId) plaidId
            = Ok ("Manual #" +:+ Number_toString manualId)).
  { intros plaidId Hm. unfold accountName. simpl. by rewrite Hm. }
  split; [| split].
  - intros plaidId plaidId' plaid'. reflexivity.
  - exact Habsent.
  - intros plaidId acct Hm _. by apply Habsent.
Qed.

Lemma accountName_manual_first_witness :
  accountName (Some sample_cache) (Some 4) (Some 7) = Ok "Manual #4".
Proof.
  destruct (accountName_manual_first sample_cache 4) as (_ & _ & Hpresent).
  apply (Hpresent 7 savings); reflexivity.
Defined.

(** C6. When manual account [m] is in the cache, [accountName(m, null)] is
    its display name if that is set and its canonical name otherwise. So with
    account 3 = {name: "Checking", display_name: null} the call gives
    "Checking", and after a [refreshCache("manualAccounts")] whose snapshot
    carries display name "Main" for account 3 (identifiers being unique in a
    snapshot, as the data model has them) it gives "Main". *)
Theorem accountName_manual_display (c : Cache) (m : Z)
    (acct : ManualAccount.t) :
  manualAccounts c !! m = Some acct ->
  (forall shown,
     ManualAccount.display_name acct = Some shown ->
     accountName (Some c) (Some m) None = Ok shown)
  /\ (ManualAccount.display_name acct = None ->
      accountName (Some c) (Some m) None = Ok (ManualAccount.name acct))
  /\ (forall api reqs errs snapshot status updated,
        m = 3 ->
        ManualAccount.name acct = "Checking" ->
        ManualAccount.display_name acct = None ->
        manual_accounts_endpoint api reqs
          = Resolved (Some (Some snapshot)) None status ->
        NoDup (map ManualAccount.id snapshot) ->
        updated ∈ snapshot ->
        ManualAccount.id updated = 3 ->
        ManualAccount.display_name updated = Some "Main" ->
        accountName (Some c) (Some 3) None = Ok "Checking"
        /\ exists c',
            refreshCache api ResourceType.manualAccounts
                         (mkWorld (Some c) reqs errs)
            = (Ok tt, mkWorld (Some c') (reqs ++ [GET_manual_accounts]) errs)
            /\ accountName (Some c') (Some 3) None = Ok "Main").
Proof.
  intros Hacct.
  assert (Hname : accountName (Some c) (Some m) None
                  = Ok (default (ManualAccount.name acct)
                                (ManualAccount.display_name acct))).
  { unfold accountName. simpl. by rewrite Hacct. }
  split; [| split].
  - intros shown Hshown. by rewrite Hname, Hshown.
  - intros Hnone. by rewrite Hname, Hnone.
  - intros api reqs errs snapshot status updated -> Hchecking Hnone
           Hanswer Hunique Hin Hid Hmain.
    split; [by rewrite Hname, Hnone, Hchecking |].
    eexists. split.
    + unfold refreshCache, reading, mbind, Js_bind.
      rewrite fetchManualAccounts_run. simpl. rewrite Hanswer. simpl.
      reflexivity.
    + unfold accountName. simpl. rewrite <- Hid.
      rewrite (table_of_lookup_unique _ _ _ Hunique Hin).
      by rewrite Hmain.
Qed.

Lemma accountName_manual_display_witness :
  accountName (Some sample_cache) (Some 3) None = Ok "Checking"
  /\ exists c',
      refreshCache api_up ResourceType.manualAccounts
                   (mkWorld (Some sample_cache) [] [])
      = (Ok tt, mkWorld (Some c') ([] ++ [GET_manual_accounts]) [])
      /\ accountName (Some c') (Some 3) None = Ok "Main".
Proof.
  assert (Hacct : manualAccounts sample_cache !! 3 = Some checking)
    by reflexivity.
  destruct (accountName_manual_display sample_cache 3 checking Hacct)
    as (_ & _ & Hscenario).
  apply (Hscenario api_up [] [] [checking_main] 200 checking_main);
    try reflexivity.
  - compute_done.
  - constructor.
Defined.

(** ** Refreshing one table *)

(** C2. On an initialized cache [refreshCache(type)] leaves the cache
    initialized and the three tables other than [type]'s exactly as they were:
    for "tags", the categories, manual accounts and synced accounts tables are
    unchanged, and likewise for the other three types. The table of [type] is
    the fetched one when the fetch succeeds. *)
Theorem refreshCache_frame (api : Api) (type : ResourceType.t) (c : Cache)
    (reqs : list Endpoint) (errs : list string) :
  let w := mkWorld (Some c) reqs errs in
  exists c',
    cache (refreshCache api type w).2 = Some c'
    /\ match type with
       | ResourceType.categories =>
           tags c' = tags c
           /\ manualAccounts c' = manualAccounts c
           /\ plaidAccounts c' = plaidAccounts c
           /\ match (fetchCategories api w).1 with
              | Ok fetched => categories c' = fetched
              | Throw _ => categories c' = categories c
              end
       | ResourceType.tags =>
           categories c' = categories c
           /\ manualAccounts c' = manualAccounts c
           /\ plaidAccounts c' = plaidAccounts c
           /\ match (fetchTags api w).1 with
              | Ok fetched => tags c' = fetched
              | Throw _ => tags c' = tags c
              end
       | ResourceType.manualAccounts =>
           categories c' = categories c
           /\ tags c' = tags c
           /\ plaidAccounts c' = plaidAccounts c
           /\ match (fetchManualAccounts api w).1 with
              | Ok fetched => manualAccounts c' = fetched
              | Throw _ => manualAccounts c' = manualAccounts c
              end
       | ResourceType.plaidAccounts =>
           categories c' = categories c
           /\ tags c' = tags c
           /\ manualAccounts c' = manualAccounts c
           /\ match (fetchPlaidAccounts api w).1 with
              | Ok fetched => plaidAccounts c' = fetched
              | Throw _ => plaidAccounts c' = plaidAccounts c
              end
       end.
Proof.
  intros w. subst w.
  destruct type; unfold refreshCache, reading, mbind, Js_bind;
    [ rewrite !fetchCategories_run | rewrite !fetchTags_run
    | rewrite !fetchManualAccounts_run | rewrite !fetchPlaidAccounts_run ];
    cbn -[table_of_response];
    match goal with
    | |- context [table_of_response ?key ?r] =>
        destruct (table_of_response key r) as [fetched | e]
    end; simpl; eexists; (split; [reflexivity |]); simpl; auto.
Qed.

(** The error a fetcher throws is the error of the API client for the
    answer, at whatever type [handleError] is used. *)
Lemma handleError_rejection {A B : Type} (status : Z) (body : ErrorBody) :
  rejection (@handleError A status body)
  = rejection (@handleError B status body).
Proof. unfold handleError. repeat case_decide; reflexivity. Qed.

Lemma table_of_response_rejection {A : Type} (key : A -> Z) (r : Response A) :
  rejection (table_of_response key r) = client_error r.
Proof.
  destruct r as [reason | data [body |] status]; simpl; try reflexivity.
  apply handleError_rejection.
Qed.

Lemma rejection_Some {A : Type} (r : Completion A) (e : JsError) :
  rejection r = Some e -> r = Throw e.
Proof. destruct r; simpl; congruence. Qed.

(** What [refreshCache] does when the failure of its request is noticed: a
    rejected request, or an answer with an error body. The error of the API
    client reaches the caller, one request has been sent, and the cache is the
    one from before the call. *)
Lemma refreshCache_noticed_failure (api : Api) (type : ResourceType.t)
    (c : Cache) (reqs : list Endpoint) (errs : list string) (e : JsError) :
  refresh_error api type reqs = Some e ->
  refreshCache api type (mkWorld (Some c) reqs errs)
  = (Throw e, mkWorld (Some c) (reqs ++ [endpoint_of type]) errs).
Proof.
  destruct type; unfold refresh_error, refreshCache, reading, mbind, Js_bind;
    [ rewrite !fetchCategories_run | rewrite !fetchTags_run
    | rewrite !fetchManualAccounts_run | rewrite !fetchPlaidAccounts_run ];
    cbn -[table_of_response];
    match goal with
    | |- context [table_of_response ?key ?r] =>
        rewrite <- (table_of_response_rejection key r)
    end;
    intros ->%rejection_Some; reflexivity.
Qed.

Lemma refreshCache_noticed_failure_rejected :
  refreshCache api_tags_unreachable ResourceType.tags
               (mkWorld (Some sample_cache) [] [])
  = (Throw (TransportError "fetch failed"),
     mkWorld (Some sample_cache) ([] ++ [endpoint_of ResourceType.tags]) []).
Proof. apply refreshCache_noticed_failure. reflexivity. Defined.

(** C7. The code at the failing input. The cache holds the tag 10, "work",
    and [refreshCache("tags")] runs while the tags request is answered with
    status 500 and an empty body. The fetch has failed, but [if (error)] does
    not see it: [refreshCache] returns normally, no error reaches the caller,
    and the tags table has been replaced by the empty table, so tag 10, known
    before the call, resolves to the placeholder afterwards. *)
Theorem refreshCache_bodyless_error_wipes :
  tagNames (Some sample_cache) [10] = Ok ["work"]
  /\ refreshCache api_tags_bodyless ResourceType.tags
                  (mkWorld (Some sample_cache) [] [])
     = (Ok tt,
        mkWorld (Some (mkCache (categories sample_cache) ∅
                               (manualAccounts sample_cache)
                               (plaidAccounts sample_cache)))
                [GET_tags] [])
  /\ tagNames
       (cache (refreshCache api_tags_bodyless ResourceType.tags
                 (mkWorld (Some sample_cache) [] [])).2)
       [10]
     = Ok ["Tag #10"].
Proof. repeat split. Qed.

(** The same answer during [initCache()]: the call succeeds and publishes a
    cache whose tags table is empty. *)
Lemma initCache_bodyless_error_publishes :
  (initCache api_tags_bodyless [] initial_world).1 = Ok tt
  /\ (tags <$> cache (initCache api_tags_bodyless [] initial_world).2)
     = Some ∅.
Proof. split; reflexivity. Qed.

(** ** Initialization *)

Lemma first_rejection_cases (order : list ResourceType.t)
    (reason : ResourceType.t -> option JsError) (last : JsError) :
  first_rejection order reason last = last
  \/ exists type, reason type = Some (first_rejection order reason last).
Proof.
  unfold first_rejection.
  destruct (head (omap reason order)) as [e |] eqn:Hhead; simpl; [| by left].
  right. apply head_Some_elem_of, list_elem_of_omap in Hhead as (type & _ & ?).
  by exists type.
Qed.

(** [initCache()] in terms of what the four fetchers make of their answers. *)
Lemma initCache_run (api : Api) (order : list ResourceType.t) (w : World) :
  let r1 := table_of_response Category.id
              (categories_endpoint api (requests w)) in
  let r2 := table_of_response Tag.id
              (tags_endpoint api (requests w ++ [GET_categories])) in
  let r3 := table_of_response ManualAccount.id
              (manual_accounts_endpoint api
                 (requests w ++ [GET_categories; GET_tags])) in
  let r4 := table_of_response PlaidAccount.id
              (plaid_accounts_endpoint api
                 (requests w
                  ++ [GET_categories; GET_tags; GET_manual_accounts])) in
  let done := initCache api order w in
  requests done.2
  = (requests w ++ [GET_categories; GET_tags; GET_manual_accounts;
                    GET_plaid_accounts])%list
  /\ match r1, r2, r3, r4 with
     | Ok cs, Ok ts, Ok ms, Ok ps =>
         done.1 = Ok tt /\ cache done.2 = Some (mkCache cs ts ms ps)
     | _, _, _, _ =>
         (exists e,
            done.1 = Throw e
            /\ Some e ∈ [rejection r1; rejection r2;
                         rejection r3; rejection r4])
         /\ cache done.2 = cache w
     end.
Proof.
  intros r1 r2 r3 r4 done. subst r1 r2 r3 r4 done.
  destruct w as [c0 reqs errs].
  unfold initCache, Promise_all, mbind, Js_bind.
  rewrite !fetchCategories_run. cbn -[table_of_response first_rejection].
  rewrite !fetchTags_run. cbn -[table_of_response first_rejection].
  rewrite !fetchManualAccounts_run. cbn -[table_of_response first_rejection].
  rewrite !fetchPlaidAccounts_run. cbn -[table_of_response first_rejection].
  rewrite <- !(assoc_L (++)). simpl app.
  destruct (table_of_response Category.id _) as [cs | e1];
    destruct (table_of_response Tag.id _) as [ts | e2];
    destruct (table_of_response ManualAccount.id _) as [ms | e3];
    destruct (table_of_response PlaidAccount.id _) as [ps | e4];
    cbn -[first_rejection]; (split; [reflexivity |]);
    try (split; reflexivity);
    (split; [| reflexivity]);
    match goal with
    | |- exists e, Throw (first_rejection ?o ?r ?l) = Throw e /\ _ =>
        exists (first_rejection o r l); split; [reflexivity |];
        destruct (first_rejection_cases o r l) as [-> | [[] <-]];
        cbn;
        repeat first [apply list_elem_of_here | apply list_elem_of_further]
    end.
Qed.

(** C1, as the code has it. Every run of [initCache()] sends the four
    requests. When all four are served (success status, no error body) it
    succeeds and publishes the four tables built from the answers. When any of
    them fails, by a rejected request or by an answer with an error body, it
    fails as a whole with the error of one of the failed requests and leaves
    the module variable as it was: a cache that was uninitialized remains so,
    no partial cache is published, and every resolution call that consults the
    cache then throws "Cache not initialized": [categoryName] on an
    identifier, [tagNames], [accountName]. Only [categoryName(null)] still
    answers, with "Uncategorized". *)
Theorem initCache_all_or_nothing (api : Api) (order : list ResourceType.t)
    (w : World) :
  let a1 := categories_endpoint api (requests w) in
  let a2 := tags_endpoint api (requests w ++ [GET_categories]) in
  let a3 := manual_accounts_endpoint api
              (requests w ++ [GET_categories; GET_tags]) in
  let a4 := plaid_accounts_endpoint api
              (requests w ++ [GET_categories; GET_tags; GET_manual_accounts]) in
  let done := initCache api order w in
  requests done.2
  = (requests w ++ [GET_categories; GET_tags; GET_manual_accounts;
                    GET_plaid_accounts])%list
  /\ (forall cs ts ms ps,
        served a1 cs -> served a2 ts -> served a3 ms -> served a4 ps ->
        done.1 = Ok tt
        /\ cache done.2
           = Some (mkCache (table_of Category.id cs) (table_of Tag.id ts)
                           (table_of ManualAccount.id ms)
                           (table_of PlaidAccount.id ps)))
  /\ (forall failed,
        Some failed ∈ init_errors api (requests w) ->
        (exists e,
           done.1 = Throw e /\ Some e ∈ init_errors api (requests w))
        /\ cache done.2 = cache w
        /\ (cache w = None ->
            cache done.2 = None
            /\ (forall id,
                  categoryName (cache done.2) (Some id)
                  = Throw not_initialized)
            /\ (forall ids,
                  tagNames (cache done.2) ids = Throw not_initialized)
            /\ (forall manualId plaidId,
                  accountName (cache done.2) manualId plaidId
                  = Throw not_initialized)
            /\ categoryName (cache done.2) None = Ok "Uncategorized")).
Proof.
  pose proof (initCache_run api order w) as Hrun.
  cbv zeta in *. unfold init_errors.
  set (a1 := categories_endpoint api (requests w)) in *.
  set (a2 := tags_endpoint api (requests w ++ [GET_categories])) in *.
  set (a3 := manual_accounts_endpoint api
               (requests w ++ [GET_categories; GET_tags])) in *.
  set (a4 := plaid_accounts_endpoint api
               (requests w
                ++ [GET_categories; GET_tags; GET_manual_accounts])) in *.
  set (done := initCache api order w) in *.
  destruct Hrun as [Hrequests Hcases].
  split; [exact Hrequests |]. split.
  - intros cs ts ms ps (d1 & s1 & E1 & _ & <-) (d2 & s2 & E2 & _ & <-)
           (d3 & s3 & E3 & _ & <-) (d4 & s4 & E4 & _ & <-).
    rewrite E1, E2, E3, E4 in Hcases. exact Hcases.
  - intros failed Hfailed.
    rewrite <- (table_of_response_rejection Category.id a1),
      <- (table_of_response_rejection Tag.id a2),
      <- (table_of_response_rejection ManualAccount.id a3),
      <- (table_of_response_rejection PlaidAccount.id a4) in *.
    assert (Hfails : (exists e,
                        done.1 = Throw e
                        /\ Some e ∈ [rejection (table_of_response Category.id a1);
                                     rejection (table_of_response Tag.id a2);
                                     rejection
                                       (table_of_response ManualAccount.id a3);
                                     rejection
                                       (table_of_response PlaidAccount.id a4)])
                     /\ cache done.2 = cache w).
    { destruct (table_of_response Category.id a1) as [cs | e1];
        destruct (table_of_response Tag.id a2) as [ts | e2];
        destruct (table_of_response ManualAccount.id a3) as [ms | e3];
        destruct (table_of_response PlaidAccount.id a4) as [ps | e4];
        try exact Hcases.
      exfalso. simpl in Hfailed.
      repeat (apply elem_of_cons in Hfailed as [Hfailed | Hfailed];
              [discriminate |]).
      by apply elem_of_nil in Hfailed. }
    destruct Hfails as [Herror Hcache].
    split; [exact Herror |]. split; [exact Hcache |].
    intros Hnone. rewrite Hcache, Hnone. repeat split.
Qed.

Lemma initCache_all_or_nothing_witness :
  ((initCache api_up [] initial_world).1 = Ok tt
   /\ cache (initCache api_up [] initial_world).2
      = Some (mkCache (table_of Category.id [food; rent])
                      (table_of Tag.id [work])
                      (table_of ManualAccount.id [checking_main])
                      (table_of PlaidAccount.id [savings])))
  /\ (exists e,
        (initCache api_tags_unreachable [] initial_world).1 = Throw e
        /\ Some e ∈ init_errors api_tags_unreachable (requests initial_world))
  /\ cache (initCache api_tags_unreachable [] initial_world).2 = None
  /\ tagNames (cache (initCache api_tags_unreachable [] initial_world).2) [10]
     = Throw not_initialized.
Proof.
  destruct (initCache_all_or_nothing api_up [] initial_world)
    as (_ & Hserved & _).
  destruct (initCache_all_or_nothing api_tags_unreachable [] initial_world)
    as (_ & _ & Hfailed).
  destruct (Hfailed (TransportError "fetch failed")) as (Herror & _ & Hnone).
  { apply list_elem_of_further, list_elem_of_here. }
  destruct (Hnone eq_refl) as (Hcache & _ & Htags & _).
  split.
  - apply (Hserved [food; rent] [work] [checking_main] [savings]);
      eexists (Some (Some _)), 200;
      (split; [reflexivity | split; [lia | reflexivity]]).
  - split; [exact Herror |]. split; [exact Hcache |]. apply Htags.
Defined.

(** C1, as stated, fails: after an initialization in which the tags fetch
    failed, the cache is uninitialized and [categoryName(null)] still returns
    "Uncategorized", so not every later resolution call fails. *)
Lemma initCache_failed_null_category_answers :
  failed_start.1 = Throw (ApiError 500 "Lunch Money API error. Try again later.")
  /\ cache failed_start.2 = None
  /\ categoryName (cache failed_start.2) None = Ok "Uncategorized"
  /\ ~ (forall id, exists e, categoryName (cache failed_start.2) id = Throw e).
Proof.
  repeat split. intros Hfail. destruct (Hfail None) as [e He]. discriminate.
Qed.

(** ** Hydration *)

Lemma string_app_assoc (a b c : string) : (a +:+ b) +:+ c = a +:+ b +:+ c.
Proof.
  induction a as [| ch a IH]; [reflexivity |].
  change (String ch ((a +:+ b) +:+ c) = String ch (a +:+ b +:+ c)).
  by rewrite IH.
Qed.

Lemma truthy_app_r (a b : string) : truthy b -> truthy (a +:+ b).
Proof. unfold truthy. destruct a; [done |]. intros _. discriminate. Qed.

Lemma truthy_app_l (a b : string) : truthy a -> truthy (a +:+ b).
Proof. unfold truthy. destruct a; [done |]. intros _. discriminate. Qed.

(** On an initialized cache the three resolution calls all return. *)
Lemma accountName_initialized (c : Cache) (manualId plaidId : option Z) :
  exists account, accountName (Some c) manualId plaidId = Ok account.
Proof. destruct manualId, plaidId; eexists; reflexivity. Qed.

Lemma categoryName_initialized (c : Cache) (id : option Z) :
  exists category, categoryName (Some c) id = Ok category.
Proof. destruct id; eexists; reflexivity. Qed.

Lemma tagNames_initialized (c : Cache) (ids : list Z) :
  exists names, tagNames (Some c) ids = Ok names.
Proof. eexists; reflexivity. Qed.

(** C8. On an initialized cache [formatTransaction] returns, for every
    transaction, a text whose second line starts with "  Category: " followed
    by exactly the string [categoryName] resolves for the transaction's
    category, then " | Account: ". For a category identifier absent from the
    table that string is the placeholder "Category #<id>": the call does not
    throw and the field is not dropped. *)
Theorem formatTransaction_category {Amount : Type}
    (formatAmount : Amount -> string -> string) (c : Cache)
    (t : Transaction.t Amount) :
  exists category account rest,
    categoryName (Some c) (Transaction.category_id t) = Ok category
    /\ formatTransaction formatAmount (Some c) t
       = Ok (Transaction.date t +:+ "  "
             +:+ formatAmount (Transaction.amount t) (Transaction.currency t)
             +:+ "  " +:+ Transaction.payee t +:+ newline
             +:+ "  Category: " +:+ category +:+ " | Account: " +:+ account
             +:+ rest)
    /\ (forall id,
          Transaction.category_id t = Some id ->
          categories c !! id = None ->
          category = "Category #" +:+ Number_toString id)
    /\ (Transaction.category_id t = Some 42 ->
        categories c !! 42 = None ->
        category = "Category #42").
Proof.
  destruct (categoryName_initialized c (Transaction.category_id t))
    as [category Hcategory].
  destruct (accountName_initialized c (Transaction.manual_account_id t)
              (Transaction.plaid_account_id t)) as [account Haccount].
  assert (Hplaceholder : forall id,
            Transaction.category_id t = Some id ->
            categories c !! id = None ->
            category = "Category #" +:+ Number_toString id).
  { intros id Hid Habsent. rewrite Hid in Hcategory.
    unfold categoryName in Hcategory. simpl in Hcategory.
    rewrite Habsent in Hcategory. by injection Hcategory. }
  exists category, account.
  unfold formatTransaction.
  set (tags := if decide (0 < length (Transaction.tag_ids t))%nat
               then _ else _).
  assert (Htags : exists shown, tags = Ok shown).
  { subst tags. case_decide; eexists; reflexivity. }
  destruct Htags as [shown ->].
  unfold mbind at 1. unfold Completion_bind at 1.
  rewrite Haccount. unfold mbind at 1. unfold Completion_bind at 1.
  rewrite Hcategory. unfold mbind, Completion_bind.
  set (notes := match Transaction.notes t with Some _ => _ | None => _ end).
  set (status := if decide (Transaction.status t = "unreviewed")
                 then _ else _).
  rewrite !filter_cons, filter_nil.
  rewrite decide_True by (by apply truthy_app_r, truthy_app_l).
  rewrite (decide_True (P := truthy ("  Category: " +:+ _)))
    by (by apply truthy_app_l).
  rewrite (decide_True (P := truthy ("  ID: " +:+ _)))
    by (by apply truthy_app_l).
  exists (status +:+ shown +:+ newline
          +:+ String.concat newline
                (("  ID: " +:+ Number_toString (Transaction.id t))
                 :: (if decide (truthy notes) then [notes] else []))).
  split; [done |]. split; [| split; [exact Hplaceholder |]].
  - f_equal. cbn [String.concat]. rewrite !string_app_assoc.
    by case_decide.
  - intros Hid Habsent. by rewrite (Hplaceholder 42).
Qed.

Lemma formatTransaction_category_witness :
  exists category account rest,
    categoryName (Some sample_cache) (Transaction.category_id coffee)
    = Ok category
    /\ formatTransaction (fun a _ => a) (Some sample_cache) coffee
       = Ok ("2026-01-02" +:+ "  " +:+ "4.5000" +:+ "  " +:+ "Cafe" +:+ newline
             +:+ "  Category: " +:+ category +:+ " | Account: " +:+ account
             +:+ rest)
    /\ category = "Category #42".
Proof.
  destruct (formatTransaction_category (fun a _ => a) sample_cache coffee)
    as (category & account & rest & Hcategory & Htext & _ & H42).
  exists category, account, rest.
  split; [exact Hcategory |]. split; [exact Htext |].
  apply H42; reflexivity.
Defined.

(** * Further properties of the code *)

(** ** [handleError] *)

(** X1. [handleError] always throws, and what it throws is an [ApiError]
    carrying the status it was given. *)
Theorem handleError_keeps_status {A : Type} (status : Z) (body : ErrorBody) :
  exists message, @handleError A status body = Throw (ApiError status message).
Proof.
  unfold handleError. repeat case_decide; subst; eexists; reflexivity.
Qed.

(** X2. For the statuses 401 and 429 and for every status from 500 on, the
    error [handleError] throws does not depend on the body: nothing the server
    sent is shown. *)
Theorem handleError_fixed_text {A : Type} (status : Z)
    (body body' : ErrorBody) :
  status = 401 \/ status = 429 \/ 500 <= status ->
  @handleError A status body = @handleError A status body'.
Proof.
  intros Hstatus. unfold handleError.
  repeat case_decide; try reflexivity; lia.
Qed.

Lemma handleError_fixed_text_witness :
  @handleError unit 503 {| message := Some "down"; errors := None |}
  = @handleError unit 503 {| message := None; errors := Some ["a"; "b"] |}.
Proof. apply handleError_fixed_text. right. right. lia. Defined.

(** X3. For the other statuses (404 included), a body with an [errors] array
    decides the text alone: it is the entries joined by "; ", and neither the
    body's [message] nor the default text is used, also when the array is
    empty and the text therefore empty. *)
Theorem handleError_errors_first {A : Type} (status : Z) (body : ErrorBody)
    (es : list string) :
  status <> 401 -> status <> 429 -> status < 500 ->
  errors body = Some es ->
  @handleError A status body = Throw (ApiError status (String.concat "; " es))
  /\ (es = [] -> @handleError A status body = Throw (ApiError status "")).
Proof.
  intros H401 H429 H500 Hes.
  assert (@handleError A status body
          = Throw (ApiError status (String.concat "; " es))) as Heq.
  { unfold handleError. rewrite Hes.
    repeat case_decide; subst; try reflexivity; lia. }
  split; [exact Heq |]. intros ->. exact Heq.
Qed.

Lemma handleError_errors_first_witness :
  @handleError unit 404 {| message := Some "gone"; errors := Some [] |}
  = Throw (ApiError 404 "").
Proof.
  apply (handleError_errors_first 404 _ []); [lia | lia | lia | | ]; reflexivity.
Defined.

(** ** The tables the fetchers build *)

Section TableFacts.
Context {A : Type} (key : A -> Z).

(** X4. Every entry of a table built from a snapshot is a record of that
    snapshot, stored under its own identifier; and an identifier has an entry
    exactly when some record of the snapshot carries it. *)
Theorem table_of_entries (records : list A) (k : Z) :
  (forall r, table_of key records !! k = Some r -> r ∈ records /\ key r = k)
  /\ (is_Some (table_of key records !! k) <-> k ∈ map key records).
Proof.
  split.
  - induction records as [| r' records IH] using rev_ind; intros r.
    + unfold table_of. simpl. by rewrite lookup_empty.
    + rewrite table_of_snoc, lookup_insert_Some.
      intros [[<- <-] | [_ Hr]].
      * split; [| done]. apply elem_of_app. right. constructor.
      * destruct (IH r Hr) as [Hin Hkey]. split; [| done].
        apply elem_of_app. by left.
  - rewrite <- not_eq_None_Some, table_of_lookup_None.
    split; [apply dec_stable | auto].
Qed.

(** X5. When a snapshot carries an identifier more than once, the last
    record with it is the one kept. *)
Theorem table_of_last_wins (before after : list A) (r : A) :
  key r ∉ map key after ->
  table_of key (before ++ r :: after) !! key r = Some r.
Proof.
  induction after as [| r' after IH] using rev_ind; intros Hfresh.
  - rewrite table_of_snoc. apply lookup_insert_eq.
  - rewrite map_app, not_elem_of_app in Hfresh. destruct Hfresh as [Hafter Hr'].
    replace (before ++ r :: after ++ [r'])%list
      with ((before ++ r :: after) ++ [r'])%list
      by (by rewrite <- app_assoc).
    rewrite table_of_snoc, lookup_insert_ne; [by apply IH |].
    intros Heq. apply Hr'. simpl. rewrite Heq. constructor.
Qed.

(** X6. A table has at most as many entries as the snapshot has records,
    and exactly as many when the identifiers of the snapshot are distinct. *)
Theorem table_of_size (records : list A) :
  (size (table_of key records) <= length records)%nat
  /\ (NoDup (map key records) ->
      size (table_of key records) = length records).
Proof.
  split.
  - induction records as [| r records IH] using rev_ind.
    + unfold table_of. simpl. by rewrite map_size_empty.
    + rewrite table_of_snoc, length_app. simpl.
      destruct (table_of key records !! key r) as [old |] eqn:Hold.
      * rewrite map_size_insert_Some by (by rewrite Hold). lia.
      * rewrite map_size_insert_None by done. lia.
  - induction records as [| r records IH] using rev_ind; intros Hnd.
    + unfold table_of. simpl. by rewrite map_size_empty.
    + rewrite map_app in Hnd. apply NoDup_app in Hnd as (Hnd & Hfresh & _).
      rewrite table_of_snoc, length_app. simpl.
      rewrite map_size_insert_None, (IH Hnd); [lia |].
      apply table_of_lookup_None. intros Hin.
      apply (Hfresh _ Hin). constructor.
Qed.

End TableFacts.

Lemma table_of_entries_witness :
  food ∈ [food; rent] /\ Category.id food = 1.
Proof.
  apply (proj1 (table_of_entries Category.id [food; rent] 1)).
  reflexivity.
Defined.

Lemma table_of_last_wins_witness :
  table_of ManualAccount.id ([checking] ++ checking_main :: [])
    !! ManualAccount.id checking_main
  = Some checking_main.
Proof. apply table_of_last_wins. simpl. apply not_elem_of_nil. Defined.

Lemma table_of_size_witness :
  size (table_of Category.id [food; rent]) = length [food; rent].
Proof.
  apply (proj2 (table_of_size Category.id [food; rent])).
  simpl. compute_done.
Defined.

(** ** The fetchers *)

(** X7. A fetcher fails in two cases, and in these only: the request itself
    is rejected, and the rejection is passed on; or the answer carries an
    error body, and the error is an [ApiError] with the status of the answer.
    An answer without error body gives a table whatever its status and data
    are: the empty one when the data or its list is missing. *)
Theorem fetch_failure_cases {A : Type} (key : A -> Z) (r : Response A) :
  (forall e,
     table_of_response key r = Throw e ->
     r = Rejected e
     \/ exists data body status message,
          r = Resolved data (Some body) status
          /\ e = ApiError status message)
  /\ (forall data status,
        r = Resolved data None status ->
        table_of_response key r = Ok (table_of key (records_of data)))
  /\ (forall status,
        r = Resolved None None status \/ r = Resolved (Some None) None status ->
        table_of_response key r = Ok ∅)
  /\ (forall reason,
        r = Rejected reason -> table_of_response key r = Throw reason)
  /\ (forall data body status,
        r = Resolved data (Some body) status ->
        exists message,
          table_of_response key r = Throw (ApiError status message)).
Proof.
  split; [| split; [| split; [| split]]].
  - intros e. destruct r as [reason | data [body |] status]; simpl.
    + intros [= ->]. by left.
    + destruct (@handleError_keeps_status (gmap Z A) status body)
        as [message ->].
      intros [= <-]. right. by exists data, body, status, message.
    + discriminate.
  - by intros data status ->.
  - by intros status [-> | ->].
  - by intros reason ->.
  - intros data body status ->. simpl.
    apply (@handleError_keeps_status (gmap Z A)).
Qed.

Lemma fetch_failure_cases_witness :
  table_of_response Tag.id (@server_error Tag.t [])
  = Throw (ApiError 500 "Lunch Money API error. Try again later.")
  /\ table_of_response Tag.id (Resolved (A := Tag.t) None None 500) = Ok ∅
  /\ table_of_response Tag.id
       (Rejected (A := Tag.t) (TransportError "fetch failed"))
     = Throw (TransportError "fetch failed").
Proof.
  split; [reflexivity |]. split.
  - apply (proj1 (proj2 (proj2 (fetch_failure_cases Tag.id
                                  (Resolved None None 500))))
             500).
    by left.
  - apply (proj1 (proj2 (proj2 (proj2
                    (fetch_failure_cases Tag.id
                       (Rejected (TransportError "fetch failed"))))))).
    reflexivity.
Defined.

(** ** [refreshCache] *)

(** X8. On the uninitialized state [refreshCache] throws
    "Cache not initialized" before anything else: no request is sent and the
    state is left as it was. *)
Theorem refreshCache_uninitialized (api : Api) (type : ResourceType.t)
    (reqs : list Endpoint) (errs : list string) :
  refreshCache api type (mkWorld None reqs errs)
  = (Throw not_initialized, mkWorld None reqs errs).
Proof. reflexivity. Qed.

(** X9. A successful [refreshCache("categories")] replaces the table as a
    whole: afterwards an identifier the snapshot does not carry resolves to
    the fallback, whatever the table held before, and with distinct
    identifiers every record of the snapshot resolves to its name. *)
Theorem refreshCache_replaces_table (api : Api) (c : Cache)
    (reqs : list Endpoint) (errs : list string)
    (data : option (option (list Category.t))) (status : Z) :
  categories_endpoint api reqs = Resolved data None status ->
  let after :=
    (refreshCache api ResourceType.categories (mkWorld (Some c) reqs errs)).2 in
  (forall id,
     id ∉ map Category.id (records_of data) ->
     categoryName (cache after) (Some id)
     = Ok ("Category #" +:+ Number_toString id))
  /\ (forall cat,
        NoDup (map Category.id (records_of data)) ->
        cat ∈ records_of data ->
        categoryName (cache after) (Some (Category.id cat))
        = Ok (Category.name cat)).
Proof.
  intros Hanswer after. subst after.
  unfold refreshCache, reading, mbind, Js_bind.
  rewrite fetchCategories_run. simpl. rewrite Hanswer. simpl. split.
  - intros id Hid. unfold categoryName. simpl.
    by rewrite (proj2 (table_of_lookup_None Category.id _ id) Hid).
  - intros cat Hnd Hin. unfold categoryName. simpl.
    by rewrite (table_of_lookup_unique Category.id _ cat Hnd Hin).
Qed.

Lemma refreshCache_replaces_table_witness :
  categoryName
    (cache (refreshCache api_up ResourceType.categories
              (mkWorld
                 (Some (mkCache (table_of Category.id
                                   [Category.mk 9 "Old" None false false false
                                                false false])
                                ∅ ∅ ∅))
                 [] [])).2)
    (Some 9)
  = Ok "Category #9"
  /\ categoryName
       (cache (refreshCache api_up ResourceType.categories
                 (mkWorld
                    (Some (mkCache (table_of Category.id
                                      [Category.mk 9 "Old" None false false
                                                   false false false])
                                   ∅ ∅ ∅))
                    [] [])).2)
       (Some (Category.id rent))
     = Ok (Category.name rent).
Proof.
  destruct (refreshCache_replaces_table api_up
              (mkCache (table_of Category.id
                          [Category.mk 9 "Old" None false false false false
                                       false])
                       ∅ ∅ ∅)
              [] [] (Some (Some [food; rent])) 200 eq_refl)
    as [Hgone Hkept].
  split.
  - apply Hgone. simpl. compute_done.
  - apply Hkept; simpl.
    + compute_done.
    + apply list_elem_of_further, list_elem_of_here.
Defined.

(** ** [initCache] *)

Ltac run_initCache :=
  unfold initCache, init_rejections, Promise_all, mbind, Js_bind;
  rewrite ?fetchCategories_run; cbn -[table_of_response first_rejection];
  rewrite ?fetchTags_run; cbn -[table_of_response first_rejection];
  rewrite ?fetchManualAccounts_run; cbn -[table_of_response first_rejection];
  rewrite ?fetchPlaidAccounts_run; cbn -[table_of_response first_rejection];
  rewrite <- ?(assoc_L (++)); simpl app;
  destruct (table_of_response Category.id _) as [cs | e1];
  destruct (table_of_response Tag.id _) as [ts | e2];
  destruct (table_of_response ManualAccount.id _) as [ms | e3];
  destruct (table_of_response PlaidAccount.id _) as [ps | e4];
  cbn -[first_rejection].

(** X10. From any state, initialized or not, [initCache()] sends the four
    requests; when it fails it leaves the module variable and stderr as they
    were, so a cache published earlier stays in place; when it succeeds it
    publishes a cache and writes exactly one line to stderr. *)
Theorem initCache_outcome (api : Api) (order : list ResourceType.t)
    (w : World) :
  let done := initCache api order w in
  requests done.2
  = (requests w ++ [GET_categories; GET_tags; GET_manual_accounts;
                    GET_plaid_accounts])%list
  /\ (forall e,
        done.1 = Throw e ->
        cache done.2 = cache w /\ stderr done.2 = stderr w)
  /\ (done.1 = Ok tt ->
      exists c line,
        cache done.2 = Some c /\ stderr done.2 = (stderr w ++ [line])%list).
Proof.
  intros done. subst done. destruct w as [c0 reqs errs].
  run_initCache; (split; [reflexivity |]); (split; [intros e He | intros He]);
    try discriminate; try (split; reflexivity).
  eexists _, _. split; reflexivity.
Qed.

Lemma initCache_outcome_witness :
  cache (initCache api_tags_down [] (mkWorld (Some sample_cache) [] [])).2
  = Some sample_cache
  /\ stderr (initCache api_tags_down [] (mkWorld (Some sample_cache) [] [])).2
     = [].
Proof.
  apply (proj1 (proj2 (initCache_outcome api_tags_down []
                         (mkWorld (Some sample_cache) [] [])))
           (ApiError 500 "Lunch Money API error. Try again later.")).
  reflexivity.
Defined.

Ltac find_elem :=
  repeat first [apply list_elem_of_here | apply list_elem_of_further].

Ltac no_elem H :=
  repeat (apply elem_of_cons in H as [H | H]; [discriminate |]);
  apply elem_of_nil in H.

Lemma first_rejection_same (order : list ResourceType.t)
    (reason : ResourceType.t -> option JsError) (last : JsError)
    (l : list (option JsError)) (e : JsError) :
  Some last ∈ l -> (forall type, reason type ∈ l) ->
  (forall e', Some e' ∈ l -> e' = e) ->
  first_rejection order reason last = e.
Proof.
  intros Hlast Hreason Hsame.
  destruct (first_rejection_cases order reason last) as [-> | [type Htype]].
  - by apply Hsame.
  - apply Hsame. rewrite <- Htype. apply Hreason.
Qed.

(** X11. When all the fetches that fail do so with the same error, in
    particular when only one fails, [initCache()] fails with that error,
    whatever the order in which the requests settle. *)
Theorem initCache_single_error (api : Api) (order : list ResourceType.t)
    (w : World) (e : JsError) :
  Some e ∈ init_rejections api w ->
  (forall e', Some e' ∈ init_rejections api w -> e' = e) ->
  (initCache api order w).1 = Throw e.
Proof.
  destruct w as [c0 reqs errs]. revert e.
  run_initCache; intros e Hin Hsame;
    try (exfalso; by no_elem Hin);
    f_equal;
    (eapply first_rejection_same; [| | exact Hsame];
     [find_elem | intros []; find_elem]).
Qed.

Lemma initCache_single_error_witness :
  (initCache api_tags_down
     [ResourceType.plaidAccounts; ResourceType.tags] initial_world).1
  = Throw (ApiError 500 "Lunch Money API error. Try again later.").
Proof.
  apply initCache_single_error.
  - apply list_elem_of_further, list_elem_of_here.
  - intros e' He'. vm_compute in He'.
    repeat (apply elem_of_cons in He' as [He' | He']; [congruence |]).
    by apply elem_of_nil in He'.
Defined.

(** X12. Against a remote side whose answers do not change, a
    [refreshCache] right after a successful [initCache()] succeeds, sends one
    request and leaves the cache exactly as [initCache()] published it. *)
Theorem refreshCache_after_initCache (api : Api)
    (order : list ResourceType.t) (type : ResourceType.t) (w : World) :
  stable api ->
  (initCache api order w).1 = Ok tt ->
  let started := (initCache api order w).2 in
  refreshCache api type started
  = (Ok tt, mkWorld (cache started)
                    (requests started ++ [endpoint_of type])
                    (stderr started)).
Proof.
  intros (Hc & Ht & Hm & Hp). destruct w as [c0 reqs errs].
  unfold initCache, Promise_all, mbind, Js_bind.
  rewrite fetchCategories_run; cbn -[table_of_response first_rejection].
  rewrite fetchTags_run; cbn -[table_of_response first_rejection].
  rewrite fetchManualAccounts_run; cbn -[table_of_response first_rejection].
  rewrite fetchPlaidAccounts_run; cbn -[table_of_response first_rejection].
  destruct (table_of_response Category.id _) as [cs | e1] eqn:Hcs;
    destruct (table_of_response Tag.id _) as [ts | e2] eqn:Hts;
    destruct (table_of_response ManualAccount.id _) as [ms | e3] eqn:Hms;
    destruct (table_of_response PlaidAccount.id _) as [ps | e4] eqn:Hps;
    cbn -[first_rejection table_of_response]; try discriminate.
  intros _.
  destruct type; unfold refreshCache, reading, mbind, Js_bind;
    [ rewrite fetchCategories_run | rewrite fetchTags_run
    | rewrite fetchManualAccounts_run | rewrite fetchPlaidAccounts_run ];
    cbn -[table_of_response].
  - rewrite (Hc _ reqs), Hcs. reflexivity.
  - rewrite (Ht _ (reqs ++ [GET_categories])%list), Hts. reflexivity.
  - rewrite (Hm _ ((reqs ++ [GET_categories]) ++ [GET_tags])%list), Hms.
    reflexivity.
  - rewrite (Hp _ (((reqs ++ [GET_categories]) ++ [GET_tags])
                   ++ [GET_manual_accounts])%list), Hps.
    reflexivity.
Qed.

Lemma refreshCache_after_initCache_witness :
  refreshCache api_up ResourceType.tags (initCache api_up [] initial_world).2
  = (Ok tt,
     mkWorld (cache (initCache api_up [] initial_world).2)
             (requests (initCache api_up [] initial_world).2
              ++ [endpoint_of ResourceType.tags])
             (stderr (initCache api_up [] initial_world).2)).
Proof.
  apply refreshCache_after_initCache.
  - repeat split.
  - reflexivity.
Defined.

(** ** Synced accounts *)

(** X13. Without a manual identifier [accountName] answers from the synced
    accounts table alone: the result is the same for every manual accounts
    table; it is the display name of the account when set, else its name, and
    "Plaid #<plaidId>" when the table has no such account. *)
Theorem accountName_plaid (c : Cache) (plaidId : Z) :
  (forall manual',
     accountName (Some c) None (Some plaidId)
     = accountName
         (Some (mkCache (categories c) (tags c) manual' (plaidAccounts c)))
         None (Some plaidId))
  /\ (forall acct shown,
        plaidAccounts c !! plaidId = Some acct ->
        PlaidAccount.display_name acct = Some shown ->
        accountName (Some c) None (Some plaidId) = Ok shown)
  /\ (forall acct,
        plaidAccounts c !! plaidId = Some acct ->
        PlaidAccount.display_name acct = None ->
        accountName (Some c) None (Some plaidId)
        = Ok (PlaidAccount.name acct))
  /\ (plaidAccounts c !! plaidId = None ->
      accountName (Some c) None (Some plaidId)
      = Ok ("Plaid #" +:+ Number_toString plaidId)).
Proof.
  unfold accountName. simpl. repeat split.
  - intros acct shown -> ->. reflexivity.
  - intros acct -> ->. reflexivity.
  - intros ->. reflexivity.
Qed.

Lemma accountName_plaid_witness :
  accountName (Some sample_cache) None (Some 7) = Ok "Savings"
  /\ accountName (Some sample_cache) None (Some 8) = Ok "Plaid #8".
Proof.
  split.
  - apply (proj1 (proj2 (proj2 (accountName_plaid sample_cache 7))) savings);
      reflexivity.
  - apply (proj2 (proj2 (proj2 (accountName_plaid sample_cache 8))));
      reflexivity.
Defined.

(** ** The transaction formatters *)

Lemma formatTransaction_None {Amount : Type}
    (formatAmount : Amount -> string -> string) (t : Transaction.t Amount) :
  formatTransaction formatAmount None t = Throw not_initialized.
Proof.
  unfold formatTransaction.
  destruct (decide (0 < length (Transaction.tag_ids t))%nat); reflexivity.
Qed.

Lemma formatTransaction_Some {Amount : Type}
    (formatAmount : Amount -> string -> string) (c : Cache)
    (t : Transaction.t Amount) :
  exists line, formatTransaction formatAmount (Some c) t = Ok line.
Proof.
  unfold formatTransaction.
  destruct (accountName_initialized c (Transaction.manual_account_id t)
              (Transaction.plaid_account_id t)) as [account ->].
  destruct (categoryName_initialized c (Transaction.category_id t))
    as [category ->].
  destruct (decide (0 < length (Transaction.tag_ids t))%nat);
    eexists; reflexivity.
Qed.

Lemma Array_map_Ok {A B} (f : A -> Completion B) (l : list A) :
  (forall x, exists y, f x = Ok y) ->
  exists ys, Array_map f l = Ok ys /\ Forall2 (fun x y => f x = Ok y) l ys.
Proof.
  intros Hf. induction l as [| x l (ys & Hys & Hall)].
  - exists []. split; [reflexivity | constructor].
  - destruct (Hf x) as [y Hy]. exists (y :: ys). simpl.
    rewrite Hy. simpl. rewrite Hys. split; [reflexivity | by constructor].
Qed.

(** X14. On the uninitialized cache [formatTransaction] throws
    "Cache not initialized" for every transaction, also one with no category,
    no account and no tags. [formatTransactions] and [formatBulkUpdateResult]
    throw for every list but the empty one, for which they return their text
    without touching the cache. *)
Theorem hydration_uninitialized {Amount : Type}
    (formatAmount : Amount -> string -> string) :
  (forall t, formatTransaction formatAmount None t = Throw not_initialized)
  /\ (forall hasMore,
        formatTransactions formatAmount None [] hasMore
        = Ok "No transactions found for this period. Try adjusting the date range or filters.")
  /\ (forall t l hasMore,
        formatTransactions formatAmount None (t :: l) hasMore
        = Throw not_initialized)
  /\ formatBulkUpdateResult formatAmount None []
     = Ok ("0 transactions updated." +:+ blank_line)
  /\ (forall t l,
        formatBulkUpdateResult formatAmount None (t :: l)
        = Throw not_initialized).
Proof.
  split; [apply formatTransaction_None |].
  split; [reflexivity |]. split; [| split; [reflexivity |]].
  - intros t l hasMore. unfold formatTransactions.
    rewrite decide_False by done. simpl.
    by rewrite formatTransaction_None.
  - intros t l. unfold formatBulkUpdateResult. simpl.
    by rewrite formatTransaction_None.
Qed.

(** X15. On an initialized cache [formatTransactions] never throws: for the
    empty list it returns the text about no transactions found, and for a
    list that is not empty the text is the line "Showing <n> transaction" or
    "... transactions" (one or several), the hint about more results when
    [hasMore] is set, a blank line, and then the text [formatTransaction]
    gives for each transaction, in order, separated by blank lines. *)
Theorem formatTransactions_initialized {Amount : Type}
    (formatAmount : Amount -> string -> string) (c : Cache)
    (transactions : list (Transaction.t Amount)) (hasMore : bool) :
  exists lines,
    Forall2 (fun t line => formatTransaction formatAmount (Some c) t = Ok line)
            transactions lines
    /\ (transactions <> [] ->
        formatTransactions formatAmount (Some c) transactions hasMore
        = Ok ("Showing "
              +:+ Number_toString (Z.of_nat (length transactions))
              +:+ " transaction"
              +:+ (if decide (length transactions = 1%nat) then "" else "s")
              +:+ (if hasMore
                   then " (more available — increase limit or use offset)"
                   else "")
              +:+ blank_line +:+ String.concat blank_line lines))
    /\ (transactions = [] ->
        formatTransactions formatAmount (Some c) transactions hasMore
        = Ok "No transactions found for this period. Try adjusting the date range or filters.")
    /\ (exists text,
          formatTransactions formatAmount (Some c) transactions hasMore
          = Ok text).
Proof.
  destruct (Array_map_Ok (formatTransaction formatAmount (Some c))
              transactions (formatTransaction_Some formatAmount c))
    as (lines & Hlines & Hall).
  exists lines. split; [exact Hall |].
  assert (Htext : transactions <> [] ->
            formatTransactions formatAmount (Some c) transactions hasMore
            = Ok ("Showing "
                  +:+ Number_toString (Z.of_nat (length transactions))
                  +:+ " transaction"
                  +:+ (if decide (length transactions = 1%nat)
                       then "" else "s")
                  +:+ (if hasMore
                       then " (more available — increase limit or use offset)"
                       else "")
                  +:+ blank_line +:+ String.concat blank_line lines)).
  { intros Hne. unfold formatTransactions.
    rewrite decide_False by (by destruct transactions).
    rewrite Hlines. simpl. unfold plural.
    by rewrite !string_app_assoc. }
  split; [exact Htext |]. split.
  - intros ->. reflexivity.
  - destruct transactions as [| t l]; [by eexists |].
    eexists. by apply Htext.
Qed.

Lemma formatTransactions_initialized_witness :
  (exists lines,
     Forall2 (fun t line =>
                formatTransaction (fun a _ => a) (Some sample_cache) t = Ok line)
             [coffee] lines
     /\ formatTransactions (fun a _ => a) (Some sample_cache) [coffee] true
        = Ok ("Showing " +:+ Number_toString (Z.of_nat (length [coffee]))
              +:+ " transaction"
              +:+ (if decide (length [coffee] = 1%nat) then "" else "s")
              +:+ " (more available — increase limit or use offset)"
              +:+ blank_line +:+ String.concat blank_line lines))
  /\ formatTransactions (Amount := string) (fun a _ => a) (Some sample_cache)
       [] true
     = Ok "No transactions found for this period. Try adjusting the date range or filters.".
Proof.
  destruct (formatTransactions_initialized (fun a _ => a) sample_cache
              [coffee] true) as (lines & Hall & Htext & _).
  destruct (formatTransactions_initialized (Amount := string) (fun a _ => a)
              sample_cache [] true) as (_ & _ & _ & Hempty & _).
  split.
  - exists lines. split; [exact Hall |]. apply Htext. discriminate.
  - apply Hempty. reflexivity.
Defined.

(** X16. [formatBulkUpdateResult] shows the first three transactions only:
    two lists of the same length that agree on their first three entries give
    the same result. *)
Theorem formatBulkUpdateResult_preview {Amount : Type}
    (formatAmount : Amount -> string -> string) (cache : option Cache)
    (l l' : list (Transaction.t Amount)) :
  length l = length l' -> take 3 l = take 3 l' ->
  formatBulkUpdateResult formatAmount cache l
  = formatBulkUpdateResult formatAmount cache l'.
Proof.
  intros Hlength Htake. unfold formatBulkUpdateResult.
  by rewrite Hlength, Htake.
Qed.

Lemma formatBulkUpdateResult_preview_witness :
  formatBulkUpdateResult (fun a _ => a) (Some sample_cache)
    [coffee; coffee; coffee; coffee]
  = formatBulkUpdateResult (fun a _ => a) (Some sample_cache)
      [coffee; coffee; coffee;
       Transaction.mk 78 "2026-01-03" "9.0000" "eur" "Bar" None None (Some 7)
                      [] (Some "late") "reviewed"].
Proof. apply formatBulkUpdateResult_preview; reflexivity. Defined.

(** ** The category, tag and account formatters *)

(** X17. [formatCategoryFlags] is the empty string exactly when none of the
    four flags (income, excluded from budget, excluded from totals, archived)
    is set. *)
Theorem formatCategoryFlags_empty (cat : Category.t) :
  formatCategoryFlags cat = ""
  <-> Category.is_income cat = false
      /\ Category.exclude_from_budget cat = false
      /\ Category.exclude_from_totals cat = false
      /\ Category.archived cat = false.
Proof.
  unfold formatCategoryFlags.
  destruct (Category.is_income cat), (Category.exclude_from_budget cat),
    (Category.exclude_from_totals cat), (Category.archived cat);
    simpl; split; try discriminate; try done; intros (? & ? & ? & ?);
    discriminate.
Qed.

Lemma formatCategoryFlags_empty_witness : formatCategoryFlags food = "".
Proof. apply formatCategoryFlags_empty. repeat split. Defined.

Lemma formatCategories_flat_None
    (children : Category.t -> option (list Category.t))
    (categories : list Category.t) :
  (Forall (fun cat => truthy_id (Category.group_id cat) = None) categories ->
   exists text, formatCategories children None categories Mode.flat = Ok text)
  /\ (Exists (fun cat => truthy_id (Category.group_id cat) <> None) categories ->
      formatCategories children None categories Mode.flat
      = Throw not_initialized).
Proof.
  unfold formatCategories.
  destruct (decide (length categories = 0%nat)) as [Hlen | _].
  { split; [by eexists |]. intros Hex. destruct categories; [| done].
    by apply Exists_nil in Hex. }
  match goal with
  | |- context [Array_map ?f categories] => set (line := f)
  end.
  assert (Hline_ok : forall cat,
            truthy_id (Category.group_id cat) = None ->
            exists text, line cat = Ok text).
  { intros cat Hcat. subst line. simpl. rewrite Hcat. by eexists. }
  assert (Hline_throw : forall cat,
            truthy_id (Category.group_id cat) <> None ->
            line cat = Throw not_initialized).
  { intros cat Hcat. subst line. simpl.
    by destruct (truthy_id (Category.group_id cat)). }
  clearbody line. split.
  - intros Hall.
    assert (exists lines, Array_map line categories = Ok lines) as [lines ->].
    { induction Hall as [| cat l Hcat _ [lines IH]]; [by eexists |].
      destruct (Hline_ok cat Hcat) as [text Htext].
      simpl. rewrite Htext, IH. by eexists. }
    by eexists.
  - intros Hex.
    assert (Array_map line categories = Throw not_initialized) as ->; [| done].
    induction Hex as [cat l Hcat | cat l _ IH]; simpl.
    + by rewrite (Hline_throw cat Hcat).
    + destruct (decide (truthy_id (Category.group_id cat) = None)) as [Hcat | Hcat].
      * destruct (Hline_ok cat Hcat) as [text ->]. simpl. by rewrite IH.
      * by rewrite (Hline_throw cat Hcat).
Qed.

(** X18. [formatCategories] in nested mode never reads the cache: it returns
    the same text on every cache state, the uninitialized one included. In
    flat mode on the uninitialized cache it returns when no category has a
    group identifier other than [null] and 0, and throws
    "Cache not initialized" as soon as one has. *)
Theorem formatCategories_uninitialized
    (children : Category.t -> option (list Category.t))
    (categories : list Category.t) :
  (exists text,
     forall cache,
       formatCategories children cache categories Mode.nested = Ok text)
  /\ (Forall (fun cat => truthy_id (Category.group_id cat) = None) categories ->
      exists text,
        formatCategories children None categories Mode.flat = Ok text)
  /\ (Exists (fun cat => truthy_id (Category.group_id cat) <> None) categories ->
      formatCategories children None categories Mode.flat
      = Throw not_initialized).
Proof.
  split; [| apply formatCategories_flat_None].
  unfold formatCategories. case_decide; eexists; reflexivity.
Qed.

Lemma formatCategories_uninitialized_witness :
  (exists text,
     formatCategories (fun _ => None) None [food; rent] Mode.flat = Ok text)
  /\ formatCategories (fun _ => None) None
       [food; Category.mk 4 "Dining" (Some 1) false false false false false]
       Mode.flat
     = Throw not_initialized.
Proof.
  destruct (formatCategories_uninitialized (fun _ => None) [food; rent])
    as (_ & Hreturns & _).
  destruct (formatCategories_uninitialized (fun _ => None)
              [food; Category.mk 4 "Dining" (Some 1) false false false false
                                 false])
    as (_ & _ & Hthrows).
  split.
  - apply Hreturns. repeat constructor.
  - apply Hthrows. apply Exists_cons_tl, Exists_cons_hd. discriminate.
Defined.

(** X19. For a category without description, [formatCategories] in flat mode
    on the one-element list gives what [formatCategory] gives for the
    category, on every cache state. *)
Theorem formatCategories_flat_single
    (children : Category.t -> option (list Category.t))
    (description : Category.t -> option string)
    (cache : option Cache) (cat : Category.t) :
  truthy_string (description cat) = None ->
  formatCategories children cache [cat] Mode.flat
  = formatCategory description cache cat.
Proof.
  intros Hdesc. unfold formatCategories, formatCategory. rewrite Hdesc.
  simpl.
  destruct (truthy_id (Category.group_id cat)) as [group_id |]; simpl.
  - destruct (getCache cache) as [c | e]; reflexivity.
  - reflexivity.
Qed.

Lemma formatCategories_flat_single_witness :
  formatCategories (fun _ => None) (Some sample_cache)
    [Category.mk 4 "Dining" (Some 1) false false false false false] Mode.flat
  = formatCategory (fun _ => Some "") (Some sample_cache)
      (Category.mk 4 "Dining" (Some 1) false false false false false).
Proof. apply formatCategories_flat_single. reflexivity. Defined.

(** X20. [formatTags] renders each tag exactly as [formatTag] does, one per
    line; only the empty list gets the text about creating tags. *)
Theorem formatTags_lines (tags : list Tag.t) :
  tags <> [] ->
  formatTags tags = String.concat newline (map formatTag tags).
Proof.
  intros Hne. unfold formatTags.
  rewrite decide_False by (by destruct tags). reflexivity.
Qed.

Lemma formatTags_lines_witness :
  formatTags [work] = String.concat newline (map formatTag [work]).
Proof. apply formatTags_lines. discriminate. Defined.

(** X21. With manual accounts to show, [formatAccounts] starts with the
    heading "## Manual Accounts" and then renders each manual account exactly
    as [formatAccount] does; without synced accounts nothing follows. *)
Theorem formatAccounts_manual (formatAmount : string -> string -> string)
    (manual : list ManualAccount.t) (plaid : list PlaidAccount.t) :
  manual <> [] ->
  exists rest,
    formatAccounts formatAmount manual plaid
    = String.concat newline
        ((("## Manual Accounts" +:+ newline)
          :: map (formatAccount formatAmount) manual) ++ rest)
    /\ (plaid = [] -> rest = [])
    /\ (plaid <> [] ->
        exists synced,
          rest = "" :: ("## Synced Accounts" +:+ newline) :: synced
          /\ length synced = length plaid).
Proof.
  intros Hne. unfold formatAccounts.
  rewrite (decide_True (P := (0 < length manual)%nat))
    by (destruct manual; [done | simpl; lia]).
  destruct (decide (0 < length plaid)%nat) as [Hplaid | Hplaid].
  - eexists. split; [| split].
    + rewrite decide_False by (simpl; lia).
      rewrite (decide_True (P := (0 < length (_ :: _))%nat)) by (simpl; lia).
      reflexivity.
    + intros ->. simpl in Hplaid. lia.
    + intros _. eexists. split; [reflexivity |]. by rewrite length_map.
  - exists []. split; [| split].
    + rewrite decide_False by (simpl; lia). reflexivity.
    + done.
    + intros Hp. destruct plaid; [done | simpl in Hplaid; lia].
Qed.

Lemma formatAccounts_manual_witness :
  exists rest,
    formatAccounts (fun a _ => a) [checking] []
    = String.concat newline
        ((("## Manual Accounts" +:+ newline)
          :: map (formatAccount (fun a _ => a)) [checking]) ++ rest)
    /\ rest = [].
Proof.
  destruct (formatAccounts_manual (fun a _ => a) [checking] [])
    as (rest & Htext & Hnone & _); [discriminate |].
  exists rest. split; [exact Htext | by apply Hnone].
Defined.

(** X22. With dependents given, [formatDeleteResult] lists only the entries
    with a positive count: entries with a count of zero or below do not change
    the text. *)
Theorem formatDeleteResult_positive (type : string) (id : Z)
    (deps : list (string * Z)) :
  formatDeleteResult type id (Some deps)
  = formatDeleteResult type id
      (Some (filter (fun '(_, v) => 0 < v) deps)).
Proof.
  unfold formatDeleteResult.
  assert (Hidem : filter (fun '(_, v) => 0 < v)
                    (filter (fun '(_, v) => 0 < v) deps)
                  = filter (fun '(_, v) => 0 < v) deps).
  { induction deps as [| [k v] deps IH]; [reflexivity |].
    rewrite (filter_cons _ (k, v) deps).
    destruct (decide (0 < v)) as [Hv | Hv]; [| exact IH].
    rewrite filter_cons. destruct (decide (0 < v)); [| done]. by rewrite IH. }
  by rewrite Hidem.
Qed.

(** ** The tag tool *)

(** X23. When a required argument is missing (no name, or an empty one, for
    a creation; no id for an update or a deletion) the tag tool answers with
    an error result and does nothing else: the answer is the same for every
    remote side, and the state is untouched. *)
Theorem manage_tag_missing_argument (p : ManageTag.params) :
  (ManageTag.act p = ManageTag.create
   /\ truthy_string (ManageTag.name p) = None)
  \/ (ManageTag.act p <> ManageTag.create /\ ManageTag.id p = None) ->
  exists message,
    forall api remote w,
      ManageTag.handler api remote p w
      = (Ok {| ManageTag.text := message; ManageTag.isError := true |}, w).
Proof.
  unfold ManageTag.handler.
  intros [[-> ->] | [Hact ->]]; [| destruct (ManageTag.act p); [done | |]];
    eexists; intros api remote w; reflexivity.
Qed.

Lemma manage_tag_missing_argument_witness :
  exists message,
    forall api remote w,
      ManageTag.handler api remote
        {| ManageTag.act := ManageTag.create; ManageTag.id := Some 1;
           ManageTag.name := Some ""; ManageTag.description := None;
           ManageTag.archived := None; ManageTag.force := None |} w
      = (Ok {| ManageTag.text := message; ManageTag.isError := true |}, w).
Proof. apply manage_tag_missing_argument. left. split; reflexivity. Defined.

(** X24. When the remote side answers the write with an error body, the tag
    tool throws an [ApiError] with the status of the answer; it does not
    refresh the cache: no request is sent and the state is untouched. *)
Theorem manage_tag_write_failed (api : Api) (remote : ManageTag.Remote)
    (p : ManageTag.params) (w : World) (error : ManageTag.WriteError)
    (status : Z) :
  write_failed remote p error status ->
  exists message,
    ManageTag.handler api remote p w = (Throw (ApiError status message), w).
Proof.
  unfold write_failed, ManageTag.handler. intros Hfailed.
  destruct (@handleError_keeps_status ManageTag.Result status
              (ManageTag.body error)) as [message Hthrow].
  exists message.
  destruct (ManageTag.act p).
  - destruct Hfailed as (name & -> & ->). unfold lift. by rewrite Hthrow.
  - destruct Hfailed as (id & -> & ->). unfold lift. by rewrite Hthrow.
  - destruct Hfailed as (id & -> & -> & Hne).
    rewrite decide_False by done. unfold lift. by rewrite Hthrow.
Qed.

Lemma manage_tag_write_failed_witness :
  exists message,
    ManageTag.handler api_up remote_refuses create_tag
                      (mkWorld (Some sample_cache) [] [])
    = (Throw (ApiError 400 message), mkWorld (Some sample_cache) [] []).
Proof.
  eapply manage_tag_write_failed. eexists. split; reflexivity.
Defined.

(** X25. After a write that went through, the tag tool still fails when the
    cache cannot be refreshed: on the uninitialized cache it throws
    "Cache not initialized" without sending a request, and when the fetch of
    the tags fails it throws the error of the fetch; either way the cache is
    left as it was and the text about the write is not returned. *)
Theorem manage_tag_refresh_fails (api : Api) (remote : ManageTag.Remote)
    (p : ManageTag.params) (reqs : list Endpoint) (errs : list string) :
  write_done remote p ->
  ManageTag.handler api remote p (mkWorld None reqs errs)
  = (Throw not_initialized, mkWorld None reqs errs)
  /\ (forall c e,
        fetch_fails api ResourceType.tags (mkWorld (Some c) reqs errs) e ->
        ManageTag.handler api remote p (mkWorld (Some c) reqs errs)
        = (Throw e, mkWorld (Some c) (reqs ++ [GET_tags]) errs)).
Proof.
  unfold write_done, ManageTag.handler.
  assert (Hfail : forall c e,
            fetch_fails api ResourceType.tags (mkWorld (Some c) reqs errs) e ->
            refreshCache api ResourceType.tags (mkWorld (Some c) reqs errs)
            = (Throw e, mkWorld (Some c) (reqs ++ [GET_tags]) errs)).
  { intros c e. simpl. unfold refreshCache, reading, mbind, Js_bind.
    rewrite !fetchTags_run. cbn -[table_of_response]. by intros ->. }
  destruct (ManageTag.act p).
  - intros (name & data & status & -> & ->). split; [reflexivity |].
    intros c e He. unfold mbind, Js_bind. by rewrite (Hfail c e He).
  - intros (id & data & status & -> & ->). split; [reflexivity |].
    intros c e He. unfold mbind, Js_bind. by rewrite (Hfail c e He).
  - intros (id & status & -> & -> & Hne). rewrite decide_False by done.
    split; [reflexivity |].
    intros c e He. unfold mbind, Js_bind. by rewrite (Hfail c e He).
Qed.

Lemma manage_tag_refresh_fails_witness :
  ManageTag.handler api_tags_down remote_accepts create_tag
                    (mkWorld None [] [])
  = (Throw not_initialized, mkWorld None [] [])
  /\ ManageTag.handler api_tags_down remote_accepts create_tag
       (mkWorld (Some sample_cache) [] [])
     = (Throw (ApiError 500 "Lunch Money API error. Try again later."),
        mkWorld (Some sample_cache) ([] ++ [GET_tags]) []).
Proof.
  assert (Hdone : write_done remote_accepts create_tag).
  { exists "work", work, 201. split; reflexivity. }
  destruct (manage_tag_refresh_fails api_tags_down remote_accepts create_tag
              [] [] Hdone) as [Hnone Hfetch].
  split; [exact Hnone |]. apply Hfetch. reflexivity.
Defined.

(** X26. After a write that went through, on an initialized cache and with
    a tags fetch that succeeds, the tag tool sends exactly one request, for
    the tags; it replaces the tags table by the fetched one and leaves the
    other three tables alone; its result is not an error. *)
Theorem manage_tag_refreshes_tags (api : Api) (remote : ManageTag.Remote)
    (p : ManageTag.params) (c : Cache) (reqs : list Endpoint)
    (errs : list string) (fetched : gmap Z Tag.t) :
  write_done remote p ->
  (fetchTags api (mkWorld (Some c) reqs errs)).1 = Ok fetched ->
  exists text,
    ManageTag.handler api remote p (mkWorld (Some c) reqs errs)
    = (Ok {| ManageTag.text := text; ManageTag.isError := false |},
       mkWorld (Some (mkCache (categories c) fetched (manualAccounts c)
                              (plaidAccounts c)))
               (reqs ++ [GET_tags]) errs).
Proof.
  unfold write_done, ManageTag.handler. intros Hdone Hfetched.
  assert (Hrefresh :
            refreshCache api ResourceType.tags (mkWorld (Some c) reqs errs)
            = (Ok tt,
               mkWorld (Some (mkCache (categories c) fetched (manualAccounts c)
                                      (plaidAccounts c)))
                       (reqs ++ [GET_tags]) errs)).
  { revert Hfetched. unfold refreshCache, reading, mbind, Js_bind.
    rewrite !fetchTags_run. cbn -[table_of_response]. by intros ->. }
  destruct (ManageTag.act p).
  - destruct Hdone as (name & data & status & -> & ->).
    eexists. unfold mbind, Js_bind. by rewrite Hrefresh.
  - destruct Hdone as (id & data & status & -> & ->).
    eexists. unfold mbind, Js_bind. by rewrite Hrefresh.
  - destruct Hdone as (id & status & -> & -> & Hne).
    rewrite decide_False by done.
    eexists. unfold mbind, Js_bind. by rewrite Hrefresh.
Qed.

Lemma manage_tag_refreshes_tags_witness :
  exists text,
    ManageTag.handler api_up remote_accepts delete_tag
                      (mkWorld (Some sample_cache) [] [])
    = (Ok {| ManageTag.text := text; ManageTag.isError := false |},
       mkWorld (Some (mkCache (categories sample_cache)
                              (table_of Tag.id [work])
                              (manualAccounts sample_cache)
                              (plaidAccounts sample_cache)))
               ([] ++ [GET_tags]) []).
Proof.
  apply manage_tag_refreshes_tags.
  - exists 10, 204. repeat split. discriminate.
  - reflexivity.
Defined.

(** X27. A deletion answered with status 422 never throws and never
    refreshes the cache: the result is an error result whose text is
    [formatDeleteResult] on the dependents of the error body. When the body
    names no dependents, that text is "Tag <id> deleted successfully.". *)
Theorem manage_tag_delete_422 (api : Api) (remote : ManageTag.Remote)
    (p : ManageTag.params) (w : World) (id : Z)
    (error : ManageTag.WriteError) :
  ManageTag.act p = ManageTag.delete ->
  ManageTag.id p = Some id ->
  ManageTag.DELETE_tag remote id (default false (ManageTag.force p))
  = ManageTag.WriteFailed error 422 ->
  ManageTag.handler api remote p w
  = (Ok {| ManageTag.text :=
             formatDeleteResult "Tag" id (ManageTag.dependents error);
           ManageTag.isError := true |}, w)
  /\ (ManageTag.dependents error = None ->
      ManageTag.handler api remote p w
      = (Ok {| ManageTag.text :=
                 "Tag " +:+ Number_toString id +:+ " deleted successfully.";
               ManageTag.isError := true |}, w)).
Proof.
  intros Hact Hid Hanswer. unfold ManageTag.handler.
  rewrite Hact, Hid, Hanswer. simpl. split; [reflexivity |].
  by intros ->.
Qed.

Lemma manage_tag_delete_422_witness :
  ManageTag.handler api_up remote_refuses delete_tag
                    (mkWorld (Some sample_cache) [] [])
  = (Ok {| ManageTag.text := "Tag 10 deleted successfully.";
           ManageTag.isError := true |},
     mkWorld (Some sample_cache) [] []).
Proof.
  apply (proj2 (manage_tag_delete_422 api_up remote_refuses delete_tag
                  (mkWorld (Some sample_cache) [] []) 10 _
                  eq_refl eq_refl eq_refl)).
  reflexivity.
Defined.

(** ** Startup *)

(** X28. The cache step of [main] never throws. When [initCache()] fails,
    starting from a fresh process, it writes two lines to stderr, the second
    announcing that some features may show IDs instead of names, and leaves the
    cache uninitialized: from then on [formatTransaction] throws
    "Cache not initialized" for every transaction. *)
Theorem main_initCache_survives (inspect : JsError -> string) (api : Api)
    (order : list ResourceType.t) :
  (forall w, (main_initCache inspect api order w).1 = Ok tt)
  /\ (forall e,
        (initCache api order initial_world).1 = Throw e ->
        let started := (main_initCache inspect api order initial_world).2 in
        cache started = None
        /\ stderr started
           = ["Failed to initialize cache: " +:+ inspect e;
              "Continuing without cache — some features may show IDs instead of names."]
        /\ forall Amount (formatAmount : Amount -> string -> string) t,
             formatTransaction formatAmount (cache started) t
             = Throw not_initialized).
Proof.
  split.
  - intros w. unfold main_initCache.
    destruct (initCache api order w) as [[[] | e] w']; reflexivity.
  - intros e. unfold main_initCache. unfold initial_world.
    run_initCache; intros [= <-]; (split; [reflexivity |]);
      (split; [reflexivity |]); intros Amount formatAmount t;
      apply formatTransaction_None.
Qed.

Lemma main_initCache_survives_witness :
  cache (main_initCache (fun _ => "ApiError") api_tags_down []
           initial_world).2 = None.
Proof.
  apply (proj2 (main_initCache_survives (fun _ => "ApiError") api_tags_down [])
           (ApiError 500 "Lunch Money API error. Try again later.")).
  reflexivity.
Defined.

(** ** Independence of the tables *)

(** X29. Resolution against one table does not depend on refreshes of the
    others: after [refreshCache(type)], whether its fetch succeeded or failed,
    [categoryName] answers as before unless [type] is "categories",
    [tagNames] as before unless it is "tags", and [accountName] with a manual
    identifier as before unless it is "manualAccounts". *)
Theorem resolution_after_other_refresh (api : Api) (type : ResourceType.t)
    (c : Cache) (reqs : list Endpoint) (errs : list string) :
  let after := cache (refreshCache api type (mkWorld (Some c) reqs errs)).2 in
  (type <> ResourceType.categories ->
   forall id, categoryName after id = categoryName (Some c) id)
  /\ (type <> ResourceType.tags ->
      forall ids, tagNames after ids = tagNames (Some c) ids)
  /\ (type <> ResourceType.manualAccounts ->
      forall manualId plaidId,
        accountName after (Some manualId) plaidId
        = accountName (Some c) (Some manualId) plaidId).
Proof.
  intros after. subst after.
  destruct type; unfold refreshCache, reading, mbind, Js_bind;
    [ rewrite !fetchCategories_run | rewrite !fetchTags_run
    | rewrite !fetchManualAccounts_run | rewrite !fetchPlaidAccounts_run ];
    cbn -[table_of_response];
    match goal with
    | |- context [table_of_response ?key ?r] =>
        destruct (table_of_response key r) as [fetched | e]
    end; simpl; repeat split; try done; intros _; intros; reflexivity.
Qed.

Lemma resolution_after_other_refresh_witness :
  categoryName
    (cache (refreshCache api_up ResourceType.tags
              (mkWorld (Some sample_cache) [] [])).2)
    (Some 2)
  = categoryName (Some sample_cache) (Some 2).
Proof.
  apply (proj1 (resolution_after_other_refresh api_up ResourceType.tags
                  sample_cache [] [])).
  discriminate.
Defined.

(** ** The notes of a transaction *)

(** X30. On an initialized cache the text of [formatTransaction] ends with
    the line "  ID: <id>" when the transaction has no notes or empty notes;
    with notes, that line is followed by an empty line and then
    "  Notes: <notes>". *)
Theorem formatTransaction_notes {Amount : Type}
    (formatAmount : Amount -> string -> string) (c : Cache)
    (t : Transaction.t Amount) :
  exists lines,
    (truthy_string (Transaction.notes t) = None ->
     formatTransaction formatAmount (Some c) t
     = Ok (lines +:+ newline +:+ "  ID: "
           +:+ Number_toString (Transaction.id t)))
    /\ (forall n,
          truthy_string (Transaction.notes t) = Some n ->
          formatTransaction formatAmount (Some c) t
          = Ok (lines +:+ newline +:+ "  ID: "
                +:+ Number_toString (Transaction.id t)
                +:+ newline +:+ newline +:+ "  Notes: " +:+ n)).
Proof.
  destruct (categoryName_initialized c (Transaction.category_id t))
    as [category Hcategory].
  destruct (accountName_initialized c (Transaction.manual_account_id t)
              (Transaction.plaid_account_id t)) as [account Haccount].
  unfold formatTransaction.
  set (tags := if decide (0 < length (Transaction.tag_ids t))%nat
               then _ else _).
  assert (Htags : exists shown, tags = Ok shown).
  { subst tags. case_decide; eexists; reflexivity. }
  destruct Htags as [shown ->].
  unfold mbind at 1. unfold Completion_bind at 1.
  rewrite Haccount. unfold mbind at 1. unfold Completion_bind at 1.
  rewrite Hcategory. unfold mbind, Completion_bind.
  set (status := if decide (Transaction.status t = "unreviewed")
                 then _ else _).
  rewrite !filter_cons, filter_nil.
  rewrite decide_True by (by apply truthy_app_r, truthy_app_l).
  rewrite (decide_True (P := truthy ("  Category: " +:+ _)))
    by (by apply truthy_app_l).
  rewrite (decide_True (P := truthy ("  ID: " +:+ _)))
    by (by apply truthy_app_l).
  exists (Transaction.date t +:+ "  "
          +:+ formatAmount (Transaction.amount t) (Transaction.currency t)
          +:+ "  " +:+ Transaction.payee t +:+ newline
          +:+ "  Category: " +:+ category +:+ " | Account: " +:+ account
          +:+ status +:+ shown).
  unfold truthy_string.
  destruct (Transaction.notes t) as [n |].
  - destruct (decide (truthy n)) as [Hn | Hn].
    + split; [discriminate |]. intros n' [= <-].
      rewrite decide_True by (by apply truthy_app_l).
      cbn [String.concat]. by rewrite !string_app_assoc.
    + split; [| discriminate]. intros _.
      rewrite decide_False by (intros Hempty; by apply Hempty).
      cbn [String.concat]. by rewrite !string_app_assoc.
  - split; [| discriminate]. intros _.
    rewrite decide_False by (intros Hempty; by apply Hempty).
    cbn [String.concat]. by rewrite !string_app_assoc.
Qed.

Lemma formatTransaction_notes_witness :
  exists lines,
    formatTransaction (fun a _ => a) (Some sample_cache) coffee
    = Ok (lines +:+ newline +:+ "  ID: "
          +:+ Number_toString (Transaction.id coffee)).
Proof.
  destruct (formatTransaction_notes (fun a _ => a) sample_cache coffee)
    as (lines & Hnone & _).
  exists lines. apply Hnone. reflexivity.
Defined.
